(** * Kaseirim loyalty backend: benefit engine, tier assignment and CPF checks

    A shallow embedding of [src/models/loyalty.py] and [src/routes/loyalty.py].

    Modelling conventions.
    - Python [int] is [Z]; SQL [Float] columns and Python [float] values are
      exact rationals [Q] (binary64 rounding, infinities and NaN are not
      modelled); [a // b] on floats is the floor of the exact quotient and
      raises [ZeroDivisionError] when [b] is zero.
    - Python [str] is [string]; the texts handled are taken over the 8-bit
      alphabet, where the regular-expression class [\d] is ['0'..'9'].
    - The committed database is the [World]: the rows of the three tables in
      insertion order, plus the reading of [datetime.utcnow()] while a request
      is served. ORM objects a handler holds are local values; [commit] writes
      them to the [World], so that [db.session.rollback()] leaves the [World]
      as it is.
    - Exceptions are the [Raises] outcome of the monad [M]; every route wraps
      its body in [try ... except Exception], modelled by [try_except]. *)

From Stdlib Require Import ZArith QArith Qround List String Ascii Bool Lia.
From Stdlib Require Import DecimalString.
Import ListNotations.

Open Scope string_scope.
Open Scope Z_scope.

(** ** Tables *)

Module LoyaltyConfig.
Record t : Type := Build {
  id : Z;
  benefit_type : string;
  points_per_real : Q;
  silver_threshold : Z;
  gold_threshold : Z;
  diamond_threshold : Z;
  bronze_discount : Q;
  silver_discount : Q;
  gold_discount : Q;
  diamond_discount : Q;
  welcome_message : string;
  promotion_message_template : string;
  created_at : Z;
  updated_at : Z;
  active : bool
}.

Definition with_benefit_type (v : string) (c : t) : t :=
  Build (id c) v (points_per_real c) (silver_threshold c) (gold_threshold c)
        (diamond_threshold c) (bronze_discount c) (silver_discount c)
        (gold_discount c) (diamond_discount c) (welcome_message c)
        (promotion_message_template c) (created_at c) (updated_at c) (active c).
End LoyaltyConfig.

Module Customer.
Record t : Type := Build {
  id : Z;
  full_name : string;
  cpf : string;
  phone : string;
  email : string;
  points : Z;
  total_spent : Q;
  level : string;
  created_at : Z;
  last_visit : Z;
  active : bool
}.

Definition with_full_name (v : string) (c : t) : t :=
  Build (id c) v (cpf c) (phone c) (email c) (points c) (total_spent c)
        (level c) (created_at c) (last_visit c) (active c).
Definition with_phone (v : string) (c : t) : t :=
  Build (id c) (full_name c) (cpf c) v (email c) (points c) (total_spent c)
        (level c) (created_at c) (last_visit c) (active c).
Definition with_email (v : string) (c : t) : t :=
  Build (id c) (full_name c) (cpf c) (phone c) v (points c) (total_spent c)
        (level c) (created_at c) (last_visit c) (active c).
Definition with_points (v : Z) (c : t) : t :=
  Build (id c) (full_name c) (cpf c) (phone c) (email c) v (total_spent c)
        (level c) (created_at c) (last_visit c) (active c).
Definition with_total_spent (v : Q) (c : t) : t :=
  Build (id c) (full_name c) (cpf c) (phone c) (email c) (points c) v
        (level c) (created_at c) (last_visit c) (active c).
Definition with_level (v : string) (c : t) : t :=
  Build (id c) (full_name c) (cpf c) (phone c) (email c) (points c)
        (total_spent c) v (created_at c) (last_visit c) (active c).
Definition with_last_visit (v : Z) (c : t) : t :=
  Build (id c) (full_name c) (cpf c) (phone c) (email c) (points c)
        (total_spent c) (level c) (created_at c) v (active c).
End Customer.

Module Transaction.
Record t : Type := Build {
  id : Z;
  customer_id : Z;
  amount : Q;
  points_earned : Z;
  benefit_value : Q;
  benefit_type : string;
  description : string;
  created_at : Z
}.
End Transaction.

(** ** The committed store and the clock *)

Record World : Type := mkWorld {
  customers : list Customer.t;
  transactions : list Transaction.t;
  configs : list LoyaltyConfig.t;
  utcnow : Z
}.

(** ** Exceptions and the handler monad *)

Inductive exn : Type :=
| NotFound            (* raised by [get_or_404] *)
| ZeroDivisionError.  (* raised by [//] *)

Inductive outcome (A : Type) : Type :=
| Returns (a : A)
| Raises (e : exn).
Arguments Returns {A} a.
Arguments Raises {A} e.

Definition M (A : Type) : Type := World -> outcome A * World.

Definition ret {A} (a : A) : M A := fun w => (Returns a, w).
Definition raise {A} (e : exn) : M A := fun w => (Raises e, w).
Definition bind {A B} (m : M A) (k : A -> M B) : M B :=
  fun w => match m w with
           | (Returns a, w') => k a w'
           | (Raises e, w') => (Raises e, w')
           end.
Definition get_world : M World := fun w => (Returns w, w).
Definition put_world (w : World) : M unit := fun _ => (Returns tt, w).

Notation "x <- m ;; k" := (bind m (fun x => k))
  (at level 61, m at next level, right associativity).
Notation "' pat <- m ;; k" := (bind m (fun x => match x with pat => k end))
  (at level 61, pat pattern, m at next level, right associativity).

(** ** Record-store primitives *)

(** The id SQLite gives to the next inserted row. *)
Definition next_id (ids : list Z) : Z := 1 + fold_right Z.max 0 ids.

Definition query_config_first_active : M (option LoyaltyConfig.t) :=
  w <- get_world ;; ret (find LoyaltyConfig.active (configs w)).

Definition query_customer_by_cpf (cpf : string) : M (option Customer.t) :=
  w <- get_world ;;
  ret (find (fun c => (Customer.cpf c =? cpf)%string) (customers w)).

Definition get_or_404 (customer_id : Z) : M Customer.t :=
  w <- get_world ;;
  match find (fun c => Customer.id c =? customer_id)%Z (customers w) with
  | Some c => ret c
  | None => raise NotFound
  end.

Definition insert_config (c : LoyaltyConfig.t) : M unit :=
  w <- get_world ;;
  put_world (mkWorld (customers w) (transactions w) (configs w ++ [c])%list (utcnow w)).

Definition insert_customer (c : Customer.t) : M unit :=
  w <- get_world ;;
  put_world (mkWorld (customers w ++ [c])%list (transactions w) (configs w) (utcnow w)).

Definition insert_transaction (t : Transaction.t) : M unit :=
  w <- get_world ;;
  put_world (mkWorld (customers w) (transactions w ++ [t])%list (configs w) (utcnow w)).

(** Committing a loaded customer overwrites its row. *)
Definition store_customer (c : Customer.t) (rows : list Customer.t) : list Customer.t :=
  map (fun r => if (Customer.id r =? Customer.id c)%Z then c else r) rows.

Definition commit_customer (c : Customer.t) : M unit :=
  w <- get_world ;;
  put_world (mkWorld (store_customer c (customers w))
                     (transactions w) (configs w) (utcnow w)).

(** ** [LoyaltyConfig.get_current_config] *)

(** [LoyaltyConfig()] once inserted: the column defaults. *)
Definition default_config (new_id now : Z) : LoyaltyConfig.t :=
  LoyaltyConfig.Build new_id "points" 10%Q 500 1500 3000 5%Q 10%Q 15%Q 20%Q
    "Bem-vindo ao programa de fidelidade Kaseirim!"
    "Olá {name}! Você tem {points} pontos. Aproveite nossa promoção especial!"
    now now true.

Definition get_current_config : M LoyaltyConfig.t :=
  found <- query_config_first_active ;;
  match found with
  | Some config => ret config
  | None =>
      w <- get_world ;;
      let config := default_config (next_id (map LoyaltyConfig.id (configs w))) (utcnow w) in
      _ <- insert_config config ;;
      ret config
  end.

(** ** [Customer] methods *)

Definition is_digit (c : ascii) : bool :=
  ((48 <=? nat_of_ascii c) && (nat_of_ascii c <=? 57))%nat.

(** [re.sub(r'\D', '', s)] *)
Fixpoint re_sub_nondigits (s : string) : string :=
  match s with
  | EmptyString => EmptyString
  | String c rest =>
      if is_digit c then String c (re_sub_nondigits rest) else re_sub_nondigits rest
  end.

(** Python slices [s[a:b]] with [0 <= a <= b] and [s[a:]]. *)
Definition slice (a b : nat) (s : string) : string := substring a (b - a) s.
Definition slice_from (a : nat) (s : string) : string := substring a (String.length s - a) s.

(** [format_cpf] and [format_phone] read one column of [self]: they take it
    as their argument. *)
Definition format_cpf (self_cpf : string) : string :=
  let cpf := re_sub_nondigits self_cpf in
  if (String.length cpf =? 11)%nat then
    slice 0 3 cpf ++ "." ++ slice 3 6 cpf ++ "." ++ slice 6 9 cpf ++ "-" ++ slice_from 9 cpf
  else self_cpf.

Definition format_phone (self_phone : string) : string :=
  let phone := re_sub_nondigits self_phone in
  if (String.length phone =? 11)%nat then
    "(" ++ slice 0 2 phone ++ ") " ++ slice 2 7 phone ++ "-" ++ slice_from 7 phone
  else if (String.length phone =? 10)%nat then
    "(" ++ slice 0 2 phone ++ ") " ++ slice 2 6 phone ++ "-" ++ slice_from 6 phone
  else self_phone.

Definition get_level (self : Customer.t) : M string :=
  config <- get_current_config ;;
  if Customer.points self >=? LoyaltyConfig.diamond_threshold config then ret "Diamante"
  else if Customer.points self >=? LoyaltyConfig.gold_threshold config then ret "Ouro"
  else if Customer.points self >=? LoyaltyConfig.silver_threshold config then ret "Prata"
  else ret "Bronze".

(** [d.get(key, default)] on a dict written as its list of items. *)
Fixpoint dict_get {V} (d : list (string * V)) (key : string) (default : V) : V :=
  match d with
  | [] => default
  | (k, v) :: rest => if (k =? key)%string then v else dict_get rest key default
  end.

Definition get_discount (self : Customer.t) : M Q :=
  config <- get_current_config ;;
  level <- get_level self ;;
  let discounts :=
    [ ("Bronze", LoyaltyConfig.bronze_discount config);
      ("Prata", LoyaltyConfig.silver_discount config);
      ("Ouro", LoyaltyConfig.gold_discount config);
      ("Diamante", LoyaltyConfig.diamond_discount config) ] in
  ret (dict_get discounts level (LoyaltyConfig.bronze_discount config)).

Definition points_to_next_level (self : Customer.t) : M Z :=
  config <- get_current_config ;;
  if Customer.points self <? LoyaltyConfig.silver_threshold config then
    ret (LoyaltyConfig.silver_threshold config - Customer.points self)
  else if Customer.points self <? LoyaltyConfig.gold_threshold config then
    ret (LoyaltyConfig.gold_threshold config - Customer.points self)
  else if Customer.points self <? LoyaltyConfig.diamond_threshold config then
    ret (LoyaltyConfig.diamond_threshold config - Customer.points self)
  else ret 0.

(** [int(a // b)] on floats. *)
Definition int_floordiv (a b : Q) : M Z :=
  if Qeq_bool b 0 then raise ZeroDivisionError else ret (Qfloor (a / b)).

(** The method mutates [self]; the mutated object is returned with the result. *)
Definition add_points (self : Customer.t) (amount_spent : Q) : M (Z * Customer.t) :=
  config <- get_current_config ;;
  ' (points_to_add, self) <-
    (if (LoyaltyConfig.benefit_type config =? "points")%string then
       points_to_add <- int_floordiv amount_spent (LoyaltyConfig.points_per_real config) ;;
       ret (points_to_add, Customer.with_points (Customer.points self + points_to_add) self)
     else if (LoyaltyConfig.benefit_type config =? "cashback")%string then
       points_to_add <- int_floordiv amount_spent (LoyaltyConfig.points_per_real config) ;;
       ret (points_to_add, Customer.with_points (Customer.points self + points_to_add) self)
     else
       points_to_add <- int_floordiv amount_spent (LoyaltyConfig.points_per_real config) ;;
       ret (points_to_add, Customer.with_points (Customer.points self + points_to_add) self)) ;;
  let self := Customer.with_total_spent (Customer.total_spent self + amount_spent)%Q self in
  level <- get_level self ;;
  let self := Customer.with_level level self in
  w <- get_world ;;
  let self := Customer.with_last_visit (utcnow w) self in
  ret (points_to_add, self).

Definition calculate_benefit_value (self : Customer.t) (amount_spent : Q)
  : M (Q * Customer.t) :=
  config <- get_current_config ;;
  if (LoyaltyConfig.benefit_type config =? "discount")%string then
    discount_percent <- get_discount self ;;
    ret ((amount_spent * (discount_percent / 100))%Q, self)
  else if (LoyaltyConfig.benefit_type config =? "cashback")%string then
    cashback_percent <- get_discount self ;;
    ret ((amount_spent * (cashback_percent / 100))%Q, self)
  else
    ' (n, self) <- add_points self amount_spent ;;
    ret (inject_Z n, self).

(** [Customer.to_dict]: the serialised customer. *)
Module CustomerDict.
Record t : Type := Build {
  id : Z;
  full_name : string;
  cpf : string;
  cpf_raw : string;
  phone : string;
  phone_raw : string;
  email : string;
  points : Z;
  total_spent : Q;
  level : string;
  discount : Q;
  points_to_next_level : Z;
  created_at : Z;
  last_visit : Z;
  active : bool;
  benefit_type : string
}.
End CustomerDict.

Definition customer_to_dict (self : Customer.t) : M CustomerDict.t :=
  config <- get_current_config ;;
  discount <- get_discount self ;;
  to_next <- points_to_next_level self ;;
  ret (CustomerDict.Build
         (Customer.id self) (Customer.full_name self)
         (format_cpf (Customer.cpf self)) (Customer.cpf self)
         (format_phone (Customer.phone self)) (Customer.phone self)
         (Customer.email self) (Customer.points self) (Customer.total_spent self)
         (Customer.level self) discount to_next
         (Customer.created_at self) (Customer.last_visit self) (Customer.active self)
         (LoyaltyConfig.benefit_type config)).

(** [Transaction.to_dict] copies the columns: the row stands for its dict. *)
Definition transaction_to_dict (self : Transaction.t) : Transaction.t := self.

(** ** Routes *)

Inductive body : Type :=
| Error (msg : string)
| ErrorOf (e : exn)                (* [{'error': str(e)}] *)
| CustomerJson (c : CustomerDict.t)
| TransactionJson (transaction : Transaction.t) (customer : CustomerDict.t).

Record response : Type := mkResponse { payload : body; status : Z }.

(** [try: ... except Exception as e: db.session.rollback(); return ..., 500] *)
Definition try_except (handler : M response) : World -> response * World :=
  fun w => match handler w with
           | (Returns r, w') => (r, w')
           | (Raises e, w') => (mkResponse (ErrorOf e) 500, w')
           end.

Definition int_of_char (c : ascii) : Z := Z.of_nat (nat_of_ascii c) - 48.

(** [s[i]] for an index within the string. *)
Definition char_at (i : nat) (s : string) : ascii :=
  match String.get i s with Some c => c | None => "000"%char end.

(** [s * n] *)
Fixpoint str_mul (s : string) (n : nat) : string :=
  match n with O => EmptyString | S n' => s ++ str_mul s n' end.

(** [f"{n}"] on an int *)
Definition str_of_int (n : Z) : string := NilZero.string_of_int (Z.to_int n).

Definition py_sum (l : list Z) : Z := fold_left Z.add l 0.

(** The two check digits the validator computes from the first ten digits. *)
Definition check_digits (cpf : string) : Z * Z :=
  let sum1 := py_sum (map (fun i => int_of_char (char_at i cpf) * (10 - Z.of_nat i)) (seq 0 9)) in
  let digit1 := 11 - (sum1 mod 11) in
  let digit1 := if digit1 >=? 10 then 0 else digit1 in
  let sum2 := py_sum (map (fun i => int_of_char (char_at i cpf) * (11 - Z.of_nat i)) (seq 0 10)) in
  let digit2 := 11 - (sum2 mod 11) in
  let digit2 := if digit2 >=? 10 then 0 else digit2 in
  (digit1, digit2).

Definition validate_cpf (cpf : string) : bool :=
  let cpf := re_sub_nondigits cpf in
  if negb (String.length cpf =? 11)%nat then false
  else if (cpf =? str_mul (String (char_at 0 cpf) EmptyString) 11)%string then false
  else
    let '(digit1, digit2) := check_digits cpf in
    (slice_from (String.length cpf - 2) cpf =? str_of_int digit1 ++ str_of_int digit2)%string.

(** *** POST /customers *)

Module CreateCustomerData.
Record t : Type := Build {
  full_name : option string;
  cpf : option string;
  phone : option string;
  email : option string;
  points : option Z
}.
End CreateCustomerData.

(** [not data.get(key)] on a text field: absent or empty. *)
Definition missing (field : option string) : bool :=
  match field with
  | None => true
  | Some s => (s =? EmptyString)%string
  end.

Definition get_default {A} (field : option A) (default : A) : A :=
  match field with Some v => v | None => default end.

Definition create_customer (data : CreateCustomerData.t) : World -> response * World :=
  try_except (
    if missing (CreateCustomerData.full_name data) then
      ret (mkResponse (Error "Nome completo é obrigatório") 400)
    else if missing (CreateCustomerData.cpf data) then
      ret (mkResponse (Error "CPF é obrigatório") 400)
    else if missing (CreateCustomerData.phone data) then
      ret (mkResponse (Error "Telefone é obrigatório") 400)
    else
      let cpf := re_sub_nondigits (get_default (CreateCustomerData.cpf data) EmptyString) in
      if negb (validate_cpf cpf) then
        ret (mkResponse (Error "CPF inválido") 400)
      else
        existing_customer <- query_customer_by_cpf cpf ;;
        match existing_customer with
        | Some _ => ret (mkResponse (Error "CPF já cadastrado") 400)
        | None =>
            let phone := re_sub_nondigits (get_default (CreateCustomerData.phone data) EmptyString) in
            w <- get_world ;;
            let customer :=
              Customer.Build
                (next_id (map Customer.id (customers w)))
                (get_default (CreateCustomerData.full_name data) EmptyString)
                cpf
                phone
                (get_default (CreateCustomerData.email data) EmptyString)
                (get_default (CreateCustomerData.points data) 0)
                0%Q            (* column default *)
                "Bronze"       (* column default *)
                (utcnow w) (utcnow w) true in
            _ <- insert_customer customer ;;
            d <- customer_to_dict customer ;;
            ret (mkResponse (CustomerJson d) 201)
        end).

(** *** PUT /customers/<id> *)

Module UpdateCustomerData.
Record t : Type := Build {
  full_name : option string;
  phone : option string;
  email : option string;
  points : option Z
}.
End UpdateCustomerData.

Definition update_customer (customer_id : Z) (data : UpdateCustomerData.t)
  : World -> response * World :=
  try_except (
    customer <- get_or_404 customer_id ;;
    let customer :=
      match UpdateCustomerData.full_name data with
      | Some v => Customer.with_full_name v customer
      | None => customer
      end in
    let customer :=
      match UpdateCustomerData.phone data with
      | Some v => Customer.with_phone (re_sub_nondigits v) customer
      | None => customer
      end in
    let customer :=
      match UpdateCustomerData.email data with
      | Some v => Customer.with_email v customer
      | None => customer
      end in
    customer <-
      match UpdateCustomerData.points data with
      | Some v =>
          let customer := Customer.with_points v customer in
          level <- get_level customer ;;
          ret (Customer.with_level level customer)
      | None => ret customer
      end ;;
    _ <- commit_customer customer ;;
    d <- customer_to_dict customer ;;
    ret (mkResponse (CustomerJson d) 200)).

(** *** POST /customers/<id>/transactions *)

Module TransactionData.
Record t : Type := Build {
  amount : option Q;
  description : option string
}.
End TransactionData.

Definition add_transaction (customer_id : Z) (data : TransactionData.t)
  : World -> response * World :=
  try_except (
    customer <- get_or_404 customer_id ;;
    let amount := get_default (TransactionData.amount data) 0%Q in
    if Qle_bool amount 0 then
      ret (mkResponse (Error "Valor deve ser maior que zero") 400)
    else
      ' (points_earned, customer) <- add_points customer amount ;;
      config <- get_current_config ;;
      ' (benefit_value, customer) <- calculate_benefit_value customer amount ;;
      w <- get_world ;;
      let transaction :=
        Transaction.Build
          (next_id (map Transaction.id (transactions w)))
          customer_id
          amount
          points_earned
          benefit_value
          (LoyaltyConfig.benefit_type config)
          (get_default (TransactionData.description data) EmptyString)
          (utcnow w) in
      _ <- insert_transaction transaction ;;
      _ <- commit_customer customer ;;
      d <- customer_to_dict customer ;;
      ret (mkResponse (TransactionJson (transaction_to_dict transaction) d) 201)).

(** *** GET /customers/<id> *)

Definition get_customer (customer_id : Z) : World -> response * World :=
  try_except (
    customer <- get_or_404 customer_id ;;
    d <- customer_to_dict customer ;;
    ret (mkResponse (CustomerJson d) 200)).

(** *** GET /customers/cpf/<cpf> *)

Definition get_customer_by_cpf (cpf : string) : World -> response * World :=
  try_except (
    let cpf_clean := re_sub_nondigits cpf in
    customer <- query_customer_by_cpf cpf_clean ;;
    match customer with
    | None => ret (mkResponse (Error "Cliente não encontrado") 404)
    | Some customer =>
        d <- customer_to_dict customer ;;
        ret (mkResponse (CustomerJson d) 200)
    end).

(** *** GET and PUT /config *)

(** The routes below answer with other JSON documents than the customer
    routes: [answer A] is a response whose document is an [A]. *)
Inductive reply (A : Type) : Type :=
| Json (a : A)
| Failure (e : exn).      (* [{'error': str(e)}] *)
Arguments Json {A} a.
Arguments Failure {A} e.

Record answer (A : Type) : Type := mkAnswer { content : reply A; code : Z }.
Arguments mkAnswer {A} content code.
Arguments content {A} a.
Arguments code {A} a.

(** [try: ... except Exception as e: db.session.rollback(); return ..., 500] *)
Definition catching {A} (handler : M (answer A)) : World -> answer A * World :=
  fun w => match handler w with
           | (Returns r, w') => (r, w')
           | (Raises e, w') => (mkAnswer (Failure e) 500, w')
           end.

(** [LoyaltyConfig.to_dict] copies the columns: the row stands for its dict. *)
Definition config_to_dict (self : LoyaltyConfig.t) : LoyaltyConfig.t := self.


(** The JSON body of PUT /config: each allowed field present or absent, with
    a value of the column's type. *)
Module ConfigData.
Record t : Type := Build {
  benefit_type : option string;
  points_per_real : option Q;
  silver_threshold : option Z;
  gold_threshold : option Z;
  diamond_threshold : option Z;
  bronze_discount : option Q;
  silver_discount : option Q;
  gold_discount : option Q;
  diamond_discount : option Q;
  welcome_message : option string;
  promotion_message_template : option string
}.
End ConfigData.

(** [for field in allowed_fields: if field in data: setattr(config, field, data[field])] *)
Definition set_allowed_fields (data : ConfigData.t) (config : LoyaltyConfig.t)
  : LoyaltyConfig.t :=
  LoyaltyConfig.Build
    (LoyaltyConfig.id config)
    (get_default (ConfigData.benefit_type data) (LoyaltyConfig.benefit_type config))
    (get_default (ConfigData.points_per_real data) (LoyaltyConfig.points_per_real config))
    (get_default (ConfigData.silver_threshold data) (LoyaltyConfig.silver_threshold config))
    (get_default (ConfigData.gold_threshold data) (LoyaltyConfig.gold_threshold config))
    (get_default (ConfigData.diamond_threshold data) (LoyaltyConfig.diamond_threshold config))
    (get_default (ConfigData.bronze_discount data) (LoyaltyConfig.bronze_discount config))
    (get_default (ConfigData.silver_discount data) (LoyaltyConfig.silver_discount config))
    (get_default (ConfigData.gold_discount data) (LoyaltyConfig.gold_discount config))
    (get_default (ConfigData.diamond_discount data) (LoyaltyConfig.diamond_discount config))
    (get_default (ConfigData.welcome_message data) (LoyaltyConfig.welcome_message config))
    (get_default (ConfigData.promotion_message_template data)
       (LoyaltyConfig.promotion_message_template config))
    (LoyaltyConfig.created_at config)
    (LoyaltyConfig.updated_at config)
    (LoyaltyConfig.active config).

Definition set_updated_at (v : Z) (config : LoyaltyConfig.t) : LoyaltyConfig.t :=
  LoyaltyConfig.Build
    (LoyaltyConfig.id config) (LoyaltyConfig.benefit_type config)
    (LoyaltyConfig.points_per_real config) (LoyaltyConfig.silver_threshold config)
    (LoyaltyConfig.gold_threshold config) (LoyaltyConfig.diamond_threshold config)
    (LoyaltyConfig.bronze_discount config) (LoyaltyConfig.silver_discount config)
    (LoyaltyConfig.gold_discount config) (LoyaltyConfig.diamond_discount config)
    (LoyaltyConfig.welcome_message config) (LoyaltyConfig.promotion_message_template config)
    (LoyaltyConfig.created_at config) v (LoyaltyConfig.active config).

(** Committing a loaded policy overwrites its row. *)
Definition store_config (c : LoyaltyConfig.t) (rows : list LoyaltyConfig.t)
  : list LoyaltyConfig.t :=
  map (fun r => if (LoyaltyConfig.id r =? LoyaltyConfig.id c)%Z then c else r) rows.

Definition commit_config (c : LoyaltyConfig.t) : M unit :=
  w <- get_world ;;
  put_world (mkWorld (customers w) (transactions w) (store_config c (configs w)) (utcnow w)).

Definition update_loyalty_config (data : ConfigData.t)
  : World -> answer LoyaltyConfig.t * World :=
  catching (
    config <- get_current_config ;;
    let config := set_allowed_fields data config in
    w <- get_world ;;
    let config := set_updated_at (utcnow w) config in
    _ <- commit_config config ;;
    ret (mkAnswer (Json (config_to_dict config)) 200)).

(** *** GET /stats *)

Module StatsDict.
Record t : Type := Build {
  total_customers : Z;
  total_transactions : Z;
  total_revenue : Q;
  total_points : Z;
  level_bronze : Z;     (* ['customers_by_level']['Bronze'] *)
  level_prata : Z;      (* ['customers_by_level']['Prata'] *)
  level_ouro : Z;       (* ['customers_by_level']['Ouro'] *)
  level_diamante : Z    (* ['customers_by_level']['Diamante'] *)
}.
End StatsDict.







(** *** GET and PUT /content *)

Module SiteContent.
Record t : Type := Build {
  id : Z;
  key : string;
  value : string;
  description : option string;
  updated_at : Z
}.
End SiteContent.

(** The [site_content] table and the clock. The content routes touch no
    other table, and on a request body that is a JSON object of texts no
    statement of theirs raises: the handlers are written as total functions. *)
Record ContentStore : Type := mkContentStore {
  site_content : list SiteContent.t;
  content_utcnow : Z
}.

(** [d[k] = v] on a dict written as its list of items: the value of a key
    present is replaced in place, a new key is added at the end. *)
Fixpoint dict_set (d : list (string * string)) (k v : string) : list (string * string) :=
  match d with
  | [] => [(k, v)]
  | (k', v') :: rest =>
      if (k' =? k)%string then (k', v) :: rest else (k', v') :: dict_set rest k v
  end.

(** [d.get(k)] *)
Fixpoint dict_find (d : list (string * string)) (k : string) : option string :=
  match d with
  | [] => None
  | (k', v') :: rest => if (k' =? k)%string then Some v' else dict_find rest k
  end.

(** [{item.key: item.value for item in content}], answered with 200. *)
Definition get_site_content (s : ContentStore) : (list (string * string) * Z) * ContentStore :=
  (fold_left (fun d item => dict_set d (SiteContent.key item) (SiteContent.value item))
     (site_content s) [],
   200, s).

(** Committing a loaded content row overwrites its row. *)
Definition store_content (c : SiteContent.t) (rows : list SiteContent.t)
  : list SiteContent.t :=
  map (fun r => if (SiteContent.id r =? SiteContent.id c)%Z then c else r) rows.

(** One turn of the loop of [update_site_content]. *)
Definition upsert_content (now : Z) (rows : list SiteContent.t) (item : string * string)
  : list SiteContent.t :=
  let '(key, value) := item in
  match find (fun c => (SiteContent.key c =? key)%string) rows with
  | Some content =>
      store_content
        (SiteContent.Build (SiteContent.id content) (SiteContent.key content) value
           (SiteContent.description content) now)
        rows
  | None =>
      (rows ++ [SiteContent.Build (next_id (map SiteContent.id rows)) key value None now])%list
  end.

(** [data.items()] is the list of the pairs of the JSON object, in order. *)
Definition update_site_content (data : list (string * string)) (s : ContentStore)
  : (string * Z) * ContentStore :=
  ("Conteúdo atualizado com sucesso", 200,
   mkContentStore (fold_left (upsert_content (content_utcnow s)) data (site_content s))
                  (content_utcnow s)).

(** * Definitions used in the statements

    Predicates on stores and policies, sample inputs, and the closed forms of
    what the methods return once the current policy is known ([level_for],
    [discount_for], [credited], [benefit], [dict_for], [posted_transaction],
    [posted_customer]); each closed form is proved below to be what the
    embedded method computes. *)

(** [config] is the row [get_current_config] finds active in [w]. *)
Definition current_config (w : World) (config : LoyaltyConfig.t) : Prop :=
  find LoyaltyConfig.active (configs w) = Some config.

(** The policies flagged active. *)
Definition active_configs (w : World) : list LoyaltyConfig.t :=
  filter LoyaltyConfig.active (configs w).

(** The documented defaults of a freshly created policy. *)
Definition has_documented_defaults (config : LoyaltyConfig.t) : Prop :=
  LoyaltyConfig.benefit_type config = "points" /\
  LoyaltyConfig.points_per_real config = 10%Q /\
  LoyaltyConfig.silver_threshold config = 500 /\
  LoyaltyConfig.gold_threshold config = 1500 /\
  LoyaltyConfig.diamond_threshold config = 3000 /\
  LoyaltyConfig.bronze_discount config = 5%Q /\
  LoyaltyConfig.silver_discount config = 10%Q /\
  LoyaltyConfig.gold_discount config = 15%Q /\
  LoyaltyConfig.diamond_discount config = 20%Q /\
  LoyaltyConfig.active config = true.

(** The four tier names, lowest first. *)
Definition tiers : list string := ["Bronze"; "Prata"; "Ouro"; "Diamante"].

(** Position of a tier name in [tiers]. *)
Definition tier_rank (level : string) : nat :=
  if (level =? "Prata")%string then 1
  else if (level =? "Ouro")%string then 2
  else if (level =? "Diamante")%string then 3
  else 0.

(** silver <= gold <= diamond *)
Definition thresholds_ordered (config : LoyaltyConfig.t) : Prop :=
  LoyaltyConfig.silver_threshold config <= LoyaltyConfig.gold_threshold config /\
  LoyaltyConfig.gold_threshold config <= LoyaltyConfig.diamond_threshold config.

(** What [get_level] returns once the policy is known. *)
Definition level_for (config : LoyaltyConfig.t) (points : Z) : string :=
  if points >=? LoyaltyConfig.diamond_threshold config then "Diamante"
  else if points >=? LoyaltyConfig.gold_threshold config then "Ouro"
  else if points >=? LoyaltyConfig.silver_threshold config then "Prata"
  else "Bronze".

(** Sample rows and stores for the concrete scenarios. *)
Definition sample_customer (points : Z) : Customer.t :=
  Customer.Build 1 "Ana Souza" "52998224725" "11999998888" "ana@example.com"
    points 0%Q "Bronze" 0 0 true.

Definition sample_world (config : LoyaltyConfig.t) (points : Z) : World :=
  mkWorld [sample_customer points] [] [config] 1700000000.

(** The spec's reading of the gap: the first threshold, in the order given,
    that the points have not reached. *)
Fixpoint first_unreached (points : Z) (thresholds : list Z) : option Z :=
  match thresholds with
  | [] => None
  | t :: rest => if points <? t then Some t else first_unreached points rest
  end.

(** The thresholds in the order silver, gold, diamond. *)
Definition policy_thresholds (config : LoyaltyConfig.t) : list Z :=
  [ LoyaltyConfig.silver_threshold config;
    LoyaltyConfig.gold_threshold config;
    LoyaltyConfig.diamond_threshold config ].

(** Every character is a digit. *)
Fixpoint all_digits (s : string) : bool :=
  match s with
  | EmptyString => true
  | String c rest => is_digit c && all_digits rest
  end.

Definition sample_registration (cpf : string) (points : option Z) : CreateCustomerData.t :=
  CreateCustomerData.Build (Some "Bia Lima") (Some cpf) (Some "(11) 3333-4444") None points.

Definition empty_world : World := mkWorld [] [] [] 1700000000.

(** What [get_discount] returns under [config] for a customer with [points]. *)
Definition discount_for (config : LoyaltyConfig.t) (points : Z) : Q :=
  dict_get
    [ ("Bronze", LoyaltyConfig.bronze_discount config);
      ("Prata", LoyaltyConfig.silver_discount config);
      ("Ouro", LoyaltyConfig.gold_discount config);
      ("Diamante", LoyaltyConfig.diamond_discount config) ]
    (level_for config points) (LoyaltyConfig.bronze_discount config).

(** The customer as one successful [add_points] call leaves it. *)
Definition credited (config : LoyaltyConfig.t) (now : Z) (self : Customer.t) (amount_spent : Q)
  : Customer.t :=
  let n := Qfloor (amount_spent / LoyaltyConfig.points_per_real config) in
  Customer.with_last_visit now
    (Customer.with_level (level_for config (Customer.points self + n))
       (Customer.with_total_spent (Customer.total_spent self + amount_spent)%Q
          (Customer.with_points (Customer.points self + n) self))).

(** What [calculate_benefit_value] returns, with the customer as it leaves it. *)
Definition benefit (config : LoyaltyConfig.t) (now : Z) (self : Customer.t) (amount_spent : Q)
  : Q * Customer.t :=
  if (LoyaltyConfig.benefit_type config =? "discount")%string then
    ((amount_spent * (discount_for config (Customer.points self) / 100))%Q, self)
  else if (LoyaltyConfig.benefit_type config =? "cashback")%string then
    ((amount_spent * (discount_for config (Customer.points self) / 100))%Q, self)
  else
    (inject_Z (Qfloor (amount_spent / LoyaltyConfig.points_per_real config)),
     credited config now self amount_spent).

(** [Customer.to_dict] under [config]. *)
Definition dict_for (config : LoyaltyConfig.t) (self : Customer.t) : CustomerDict.t :=
  CustomerDict.Build
    (Customer.id self) (Customer.full_name self)
    (format_cpf (Customer.cpf self)) (Customer.cpf self)
    (format_phone (Customer.phone self)) (Customer.phone self)
    (Customer.email self) (Customer.points self) (Customer.total_spent self)
    (Customer.level self) (discount_for config (Customer.points self))
    match first_unreached (Customer.points self) (policy_thresholds config) with
    | Some t => t - Customer.points self
    | None => 0
    end
    (Customer.created_at self) (Customer.last_visit self) (Customer.active self)
    (LoyaltyConfig.benefit_type config).

(** The transaction row [add_transaction] appends. *)
Definition posted_transaction (config : LoyaltyConfig.t) (w : World) (customer_id : Z)
    (customer : Customer.t) (data : TransactionData.t) : Transaction.t :=
  let amount := get_default (TransactionData.amount data) 0%Q in
  Transaction.Build
    (next_id (map Transaction.id (transactions w)))
    customer_id amount
    (Qfloor (amount / LoyaltyConfig.points_per_real config))
    (fst (benefit config (utcnow w) (credited config (utcnow w) customer amount) amount))
    (LoyaltyConfig.benefit_type config)
    (get_default (TransactionData.description data) EmptyString)
    (utcnow w).

(** The customer row [add_transaction] commits. *)
Definition posted_customer (config : LoyaltyConfig.t) (w : World)
    (customer : Customer.t) (data : TransactionData.t) : Customer.t :=
  let amount := get_default (TransactionData.amount data) 0%Q in
  snd (benefit config (utcnow w) (credited config (utcnow w) customer amount) amount).

(** The policy is in the discount or in the cashback mode. *)
Definition percent_mode (config : LoyaltyConfig.t) : bool :=
  ((LoyaltyConfig.benefit_type config =? "discount")
   || (LoyaltyConfig.benefit_type config =? "cashback"))%string.

(** The default policy switched to the discount mode. *)
Definition discount_policy (config_id created : Z) : LoyaltyConfig.t :=
  LoyaltyConfig.with_benefit_type "discount" (default_config config_id created).

(** Two transaction rows that agree on every column but the mode label. *)
Definition same_but_label (t1 t2 : Transaction.t) : Prop :=
  Transaction.id t1 = Transaction.id t2 /\
  Transaction.customer_id t1 = Transaction.customer_id t2 /\
  Transaction.amount t1 = Transaction.amount t2 /\
  Transaction.points_earned t1 = Transaction.points_earned t2 /\
  Transaction.benefit_value t1 = Transaction.benefit_value t2 /\
  Transaction.description t1 = Transaction.description t2 /\
  Transaction.created_at t1 = Transaction.created_at t2.

(** The tier cached on a stored customer is the one [get_level] computes. *)
Definition tier_cached (w : World) (customer : Customer.t) : Prop :=
  fst (get_level customer w) = Returns (Customer.level customer).

(** The nine leading digits of an id followed by the two check digits the
    validator computes for them: the first from the nine, the second from the
    nine and the first. *)
Definition with_check_digits (nine : string) : string :=
  let ten := nine ++ str_of_int (fst (check_digits nine)) in
  ten ++ str_of_int (snd (check_digits ten)).

(** bronze <= silver <= gold <= diamond on the benefit percents *)
Definition percents_ordered (config : LoyaltyConfig.t) : Prop :=
  (LoyaltyConfig.bronze_discount config <= LoyaltyConfig.silver_discount config)%Q /\
  (LoyaltyConfig.silver_discount config <= LoyaltyConfig.gold_discount config)%Q /\
  (LoyaltyConfig.gold_discount config <= LoyaltyConfig.diamond_discount config)%Q.

(** The percent table of [get_discount], as its list of items. *)
Definition discounts_table (config : LoyaltyConfig.t) : list (string * Q) :=
  [ ("Bronze", LoyaltyConfig.bronze_discount config);
    ("Prata", LoyaltyConfig.silver_discount config);
    ("Ouro", LoyaltyConfig.gold_discount config);
    ("Diamante", LoyaltyConfig.diamond_discount config) ].

(** The tests [create_customer] makes before it stores anything: name, CPF
    and phone present, the CPF digits accepted, and no stored customer with
    those digits. *)
Definition registrable (w : World) (data : CreateCustomerData.t) : bool :=
  let cpf := re_sub_nondigits (get_default (CreateCustomerData.cpf data) EmptyString) in
  negb (missing (CreateCustomerData.full_name data)) &&
  negb (missing (CreateCustomerData.cpf data)) &&
  negb (missing (CreateCustomerData.phone data)) &&
  validate_cpf cpf &&
  match find (fun c => (Customer.cpf c =? cpf)%string) (customers w) with
  | Some _ => false
  | None => true
  end.

(** The row [create_customer] inserts. *)
Definition new_customer (w : World) (data : CreateCustomerData.t) : Customer.t :=
  Customer.Build
    (next_id (map Customer.id (customers w)))
    (get_default (CreateCustomerData.full_name data) EmptyString)
    (re_sub_nondigits (get_default (CreateCustomerData.cpf data) EmptyString))
    (re_sub_nondigits (get_default (CreateCustomerData.phone data) EmptyString))
    (get_default (CreateCustomerData.email data) EmptyString)
    (get_default (CreateCustomerData.points data) 0)
    0%Q "Bronze" (utcnow w) (utcnow w) true.

(** What the store guarantees about its customers: ids and CPFs are unique,
    every CPF is stored as eleven digits that the validator accepts, and
    every cached tier is one of the four tier names. *)
Definition customers_wf (w : World) : Prop :=
  NoDup (map Customer.id (customers w)) /\
  NoDup (map Customer.cpf (customers w)) /\
  Forall (fun c => validate_cpf (Customer.cpf c) = true /\
                   re_sub_nondigits (Customer.cpf c) = Customer.cpf c /\
                   In (Customer.level c) tiers)
         (customers w).

(** The customer as PUT /customers/<id> leaves it under [config]: name and
    e-mail replaced when given, the phone by the digits of the one given, and
    with a points edit the points and the tier of the new points. *)
Definition edited (config : LoyaltyConfig.t) (data : UpdateCustomerData.t)
    (customer : Customer.t) : Customer.t :=
  let customer :=
    match UpdateCustomerData.full_name data with
    | Some v => Customer.with_full_name v customer
    | None => customer
    end in
  let customer :=
    match UpdateCustomerData.phone data with
    | Some v => Customer.with_phone (re_sub_nondigits v) customer
    | None => customer
    end in
  let customer :=
    match UpdateCustomerData.email data with
    | Some v => Customer.with_email v customer
    | None => customer
    end in
  match UpdateCustomerData.points data with
  | Some v => Customer.with_level (level_for config v) (Customer.with_points v customer)
  | None => customer
  end.


(** The value of the last row with key [k]. *)
Fixpoint last_value (k : string) (rows : list SiteContent.t) : option string :=
  match rows with
  | [] => None
  | r :: rest =>
      match last_value k rest with
      | Some v => Some v
      | None => if (SiteContent.key r =? k)%string then Some (SiteContent.value r) else None
      end
  end.

(** The value of the last pair of a request with key [k]. *)
Fixpoint last_item (k : string) (data : list (string * string)) : option string :=
  match data with
  | [] => None
  | (k', v) :: rest =>
      match last_item k rest with
      | Some v' => Some v'
      | None => if (k' =? k)%string then Some v else None
      end
  end.

(** The constraints of the [site_content] table: primary key and unique key. *)
Definition content_wf (s : ContentStore) : Prop :=
  NoDup (map SiteContent.id (site_content s)) /\
  NoDup (map SiteContent.key (site_content s)).

(** * Properties *)

(** Case analysis on every test of a conditional in the goal. *)
Ltac case_tests :=
  repeat match goal with |- context [if ?b then _ else _] => destruct b end.

(** The three branches of [add_points] are the same code. *)
Lemma if_same {A} (b1 b2 : bool) (x : A) : (if b1 then x else if b2 then x else x) = x.
Proof. destruct b1, b2; reflexivity. Qed.

(** ** The policy resolver *)

Lemma get_current_config_found w config :
  current_config w config -> get_current_config w = (Returns config, w).
Proof.
  unfold current_config, get_current_config, query_config_first_active, bind, get_world, ret.
  intros ->. reflexivity.
Qed.

Lemma find_app_none {A} (f : A -> bool) l x :
  find f l = None -> find f (l ++ [x])%list = if f x then Some x else None.
Proof.
  induction l as [|a l IH]; simpl; [reflexivity|].
  destruct (f a); [discriminate|exact IH].
Qed.

Lemma find_none_filter {A} (f : A -> bool) l : find f l = None -> filter f l = [].
Proof.
  induction l as [|a l IH]; simpl; [reflexivity|].
  destruct (f a); [discriminate|exact IH].
Qed.

Lemma get_current_config_fresh w :
  find LoyaltyConfig.active (configs w) = None ->
  let config := default_config (next_id (map LoyaltyConfig.id (configs w))) (utcnow w) in
  let w' := mkWorld (customers w) (transactions w) (configs w ++ [config])%list (utcnow w) in
  get_current_config w = (Returns config, w') /\ current_config w' config.
Proof.
  intros Hnone config w'. split.
  - unfold get_current_config, query_config_first_active, insert_config,
      bind, get_world, put_world, ret.
    rewrite Hnone. reflexivity.
  - unfold current_config, w'. simpl. rewrite (find_app_none _ _ config Hnone). reflexivity.
Qed.

(** Whatever the store holds, the resolver returns a policy that is current
    afterwards, and touches nothing but the policy table. *)
Lemma get_current_config_total w :
  exists config w',
    get_current_config w = (Returns config, w') /\ current_config w' config /\
    customers w' = customers w /\ transactions w' = transactions w /\
    utcnow w' = utcnow w.
Proof.
  destruct (find LoyaltyConfig.active (configs w)) as [config|] eqn:Hf.
  - exists config, w. split; [apply get_current_config_found; exact Hf|].
    repeat split; auto.
  - destruct (get_current_config_fresh w Hf) as [Hrun Hcur].
    eexists _, _. split; [exact Hrun|]. split; [exact Hcur|]. repeat split.
Qed.

Lemma find_some_filter {A} (f : A -> bool) l x :
  find f l = Some x -> exists rest, filter f l = x :: rest.
Proof.
  induction l as [|a l IH]; simpl; [discriminate|].
  destruct (f a) eqn:Ha.
  - intros [= ->]. eexists. reflexivity.
  - exact IH.
Qed.

(** C8. Two calls of [get_current_config] in a row return the same policy,
    the second call leaves the store as the first left it, and the number of
    active policies is what it was, or one when there was none; in that case
    the first call appends a policy with the documented defaults
    (points mode, 10.0 per point, thresholds 500/1500/3000, percents
    5/10/15/20) to the policy table. *)
Theorem get_current_config_idempotent (w : World) :
  exists config w1,
    get_current_config w = (Returns config, w1) /\
    get_current_config w1 = (Returns config, w1) /\
    customers w1 = customers w /\ transactions w1 = transactions w /\
    match active_configs w with
    | [] =>
        has_documented_defaults config /\
        configs w1 = (configs w ++ [config])%list /\
        active_configs w1 = [config]
    | first :: _ => config = first /\ w1 = w
    end.
Proof.
  unfold active_configs.
  destruct (find LoyaltyConfig.active (configs w)) as [config|] eqn:Hf.
  - exists config, w.
    pose proof (get_current_config_found w config Hf) as Hrun.
    destruct (find_some_filter _ _ _ Hf) as [rest ->].
    repeat split; assumption.
  - destruct (get_current_config_fresh w Hf) as [Hrun Hcur].
    eexists _, _. split; [exact Hrun|].
    split; [apply get_current_config_found; exact Hcur|].
    rewrite (find_none_filter _ _ Hf). simpl.
    rewrite filter_app, (find_none_filter _ _ Hf). simpl.
    repeat split; reflexivity.
Qed.

(** ** Tier assignment *)

Lemma get_level_run w config self :
  current_config w config ->
  get_level self w = (Returns (level_for config (Customer.points self)), w).
Proof.
  intros Hc. unfold get_level, bind.
  rewrite (get_current_config_found _ _ Hc). unfold level_for, ret.
  case_tests; reflexivity.
Qed.

Lemma level_for_in_tiers config p : In (level_for config p) tiers.
Proof.
  unfold level_for, tiers.
  case_tests; simpl; auto.
Qed.

(** Monotonicity needs no assumption on the order of the thresholds. *)
Lemma level_for_monotone config p q :
  p <= q -> (tier_rank (level_for config p) <= tier_rank (level_for config q))%nat.
Proof.
  intros Hpq. unfold level_for.
  repeat match goal with
         | |- context [?a >=? ?b] => destruct (Z.geb_spec a b)
         end; vm_compute; lia.
Qed.

Lemma tiers_NoDup : NoDup tiers.
Proof.
  unfold tiers.
  repeat (constructor; [simpl; intuition discriminate|]). constructor.
Qed.

(** The same from the policy the resolver returns, in any store. *)
Lemma get_level_resolved w config w' self :
  get_current_config w = (Returns config, w') ->
  get_level self w = (Returns (level_for config (Customer.points self)), w').
Proof.
  intros Hrun. unfold get_level, bind. rewrite Hrun. unfold level_for, ret.
  case_tests; reflexivity.
Qed.

(** C4. Under a policy with silver <= gold <= diamond, [get_level] returns
    for every customer one of the four tier names (which are pairwise
    distinct), and a customer with at least as many points as another gets a
    tier at least as high, in the order Bronze < Prata < Ouro < Diamante. *)
Theorem get_level_monotone
    (w w' : World) (config : LoyaltyConfig.t) (c1 c2 : Customer.t) :
  get_current_config w = (Returns config, w') ->
  thresholds_ordered config ->
  Customer.points c1 <= Customer.points c2 ->
  exists l1 l2,
    get_level c1 w = (Returns l1, w') /\
    get_level c2 w = (Returns l2, w') /\
    In l1 tiers /\ In l2 tiers /\ NoDup tiers /\
    (tier_rank l1 <= tier_rank l2)%nat.
Proof.
  intros Hrun _ Hle.
  exists (level_for config (Customer.points c1)), (level_for config (Customer.points c2)).
  split; [apply get_level_resolved; exact Hrun|].
  split; [apply get_level_resolved; exact Hrun|].
  split; [apply level_for_in_tiers|].
  split; [apply level_for_in_tiers|].
  split; [apply tiers_NoDup|].
  apply level_for_monotone; exact Hle.
Qed.

Lemma get_level_monotone_witness :
  exists l1 l2,
    get_level (sample_customer 499) (sample_world (default_config 1 0) 499)
      = (Returns l1, sample_world (default_config 1 0) 499) /\
    get_level (sample_customer 1500) (sample_world (default_config 1 0) 499)
      = (Returns l2, sample_world (default_config 1 0) 499) /\
    In l1 tiers /\ In l2 tiers /\ NoDup tiers /\
    (tier_rank l1 <= tier_rank l2)%nat.
Proof.
  apply (get_level_monotone (sample_world (default_config 1 0) 499)
           (sample_world (default_config 1 0) 499) (default_config 1 0)).
  - reflexivity.
  - unfold thresholds_ordered; simpl; lia.
  - simpl; lia.
Defined.

Example get_level_at_thresholds :
  map (fun p => fst (get_level (sample_customer p) empty_world))
      [0; 499; 500; 1499; 1500; 2999; 3000]
  = map Returns ["Bronze"; "Bronze"; "Prata"; "Prata"; "Ouro"; "Ouro"; "Diamante"].
Proof. reflexivity. Qed.

(** ** Points to the next tier *)

Lemma points_to_next_level_run w config self :
  current_config w config ->
  points_to_next_level self w =
    (Returns match first_unreached (Customer.points self) (policy_thresholds config) with
             | Some t => t - Customer.points self
             | None => 0
             end, w).
Proof.
  intros Hc. unfold points_to_next_level, bind.
  rewrite (get_current_config_found _ _ Hc). unfold policy_thresholds, first_unreached, ret.
  case_tests; reflexivity.
Qed.

Lemma points_to_next_level_resolved w config w' self :
  get_current_config w = (Returns config, w') ->
  points_to_next_level self w =
    (Returns match first_unreached (Customer.points self) (policy_thresholds config) with
             | Some t => t - Customer.points self
             | None => 0
             end, w').
Proof.
  intros Hrun. unfold points_to_next_level, bind. rewrite Hrun.
  unfold policy_thresholds, first_unreached, ret.
  case_tests; reflexivity.
Qed.

(** C5. Under a policy with silver <= gold <= diamond, [points_to_next_level]
    returns 0 exactly when the points have reached the diamond threshold;
    below it the result is strictly positive and is the distance to the first
    of the silver, gold and diamond thresholds not yet reached. *)
Theorem points_to_next_level_spec
    (w w' : World) (config : LoyaltyConfig.t) (self : Customer.t) :
  get_current_config w = (Returns config, w') ->
  thresholds_ordered config ->
  exists gap,
    points_to_next_level self w = (Returns gap, w') /\
    (gap = 0 <-> Customer.points self >= LoyaltyConfig.diamond_threshold config) /\
    (Customer.points self < LoyaltyConfig.diamond_threshold config ->
     0 < gap /\
     exists t, first_unreached (Customer.points self) (policy_thresholds config) = Some t /\
               Customer.points self < t /\ gap = t - Customer.points self).
Proof.
  intros Hrun [Hsg Hgd].
  eexists. split; [apply points_to_next_level_resolved; exact Hrun|].
  unfold policy_thresholds, first_unreached.
  repeat match goal with
         | |- context [?a <? ?b] => destruct (Z.ltb_spec a b)
         end.
  all: split; [lia|]; intros Hlt; try lia.
  all: split; [lia|]; eexists; split; [reflexivity|lia].
Qed.

Lemma points_to_next_level_spec_witness :
  exists gap,
    points_to_next_level (sample_customer 700) (sample_world (default_config 1 0) 700)
      = (Returns gap, sample_world (default_config 1 0) 700) /\
    (gap = 0 <-> Customer.points (sample_customer 700)
                 >= LoyaltyConfig.diamond_threshold (default_config 1 0)) /\
    (Customer.points (sample_customer 700) < LoyaltyConfig.diamond_threshold (default_config 1 0) ->
     0 < gap /\
     exists t, first_unreached (Customer.points (sample_customer 700))
                 (policy_thresholds (default_config 1 0)) = Some t /\
               Customer.points (sample_customer 700) < t /\
               gap = t - Customer.points (sample_customer 700)).
Proof.
  apply (points_to_next_level_spec (sample_world (default_config 1 0) 700)
           (sample_world (default_config 1 0) 700) (default_config 1 0)).
  - reflexivity.
  - unfold thresholds_ordered; simpl; lia.
Defined.

Example points_to_next_level_samples :
  map (fun p => fst (points_to_next_level (sample_customer p) empty_world))
      [0; 499; 500; 1499; 1500; 2999; 3000; 4000]
  = map Returns [500; 1; 1000; 1; 1500; 1; 0; 0].
Proof. reflexivity. Qed.

(** Without the ordering the equivalence is lost: with silver above diamond a
    customer past the diamond threshold is still told a positive gap. *)
Example points_to_next_level_unordered :
  let config := LoyaltyConfig.Build 1 "points" 10%Q 3000 1500 500 5%Q 10%Q 15%Q 20%Q
                  EmptyString EmptyString 0 0 true in
  fst (points_to_next_level (sample_customer 1000) (sample_world config 1000)) = Returns 2000.
Proof. reflexivity. Qed.

(** ** Display of the national id *)

Lemma re_sub_nondigits_all_digits s : all_digits (re_sub_nondigits s) = true.
Proof.
  induction s as [|c s IH]; simpl; [reflexivity|].
  destruct (is_digit c) eqn:Hc; simpl; [rewrite Hc|]; exact IH.
Qed.

Lemma re_sub_nondigits_fixed s : all_digits s = true -> re_sub_nondigits s = s.
Proof.
  induction s as [|c s IH]; simpl; [reflexivity|].
  intros [Hc Hs]%andb_prop. rewrite Hc, (IH Hs). reflexivity.
Qed.

Lemma re_sub_nondigits_idempotent s :
  re_sub_nondigits (re_sub_nondigits s) = re_sub_nondigits s.
Proof. apply re_sub_nondigits_fixed, re_sub_nondigits_all_digits. Qed.

(** A string of eleven characters, spelled out. *)
Lemma length_11_inv s :
  String.length s = 11%nat ->
  exists c0 c1 c2 c3 c4 c5 c6 c7 c8 c9 c10,
    s = String c0 (String c1 (String c2 (String c3 (String c4 (String c5
        (String c6 (String c7 (String c8 (String c9 (String c10 EmptyString)))))))))).
Proof.
  intros H.
  do 11 (destruct s as [|? s]; [discriminate H|]).
  destruct s; [|discriminate H].
  repeat eexists.
Qed.

(** On eleven digits the formatter inserts the three separators and nothing
    else, so stripping the non-digits gives the digits back. *)
Lemma format_cpf_digits s :
  String.length (re_sub_nondigits s) = 11%nat ->
  re_sub_nondigits (format_cpf s) = re_sub_nondigits s.
Proof.
  intros Hlen. unfold format_cpf. rewrite Hlen. simpl Nat.eqb. cbv iota.
  pose proof (re_sub_nondigits_all_digits s) as Hd.
  destruct (length_11_inv _ Hlen) as (c0&c1&c2&c3&c4&c5&c6&c7&c8&c9&c10&E).
  rewrite E in Hd |- *. simpl in Hd.
  repeat match type of Hd with
         | (_ && _)%bool = true => apply andb_prop in Hd; destruct Hd as [? Hd]
         end.
  cbn [slice slice_from String.length Nat.sub substring append re_sub_nondigits].
  repeat match goal with H : is_digit _ = true |- _ => rewrite H; clear H end.
  reflexivity.
Qed.

Lemma format_cpf_unchanged x :
  String.length (re_sub_nondigits x) <> 11%nat -> format_cpf x = x.
Proof.
  intros H. unfold format_cpf. apply Nat.eqb_neq in H. rewrite H. reflexivity.
Qed.

(** C9. For a text whose digits are exactly eleven, [format_cpf] groups the
    digits as XXX.XXX.XXX-XX, and formatting, stripping the non-digits and
    formatting again gives the first formatting. *)
Theorem format_cpf_roundtrip (x : string) :
  String.length (re_sub_nondigits x) = 11%nat ->
  let digits := re_sub_nondigits x in
  format_cpf x =
    slice 0 3 digits ++ "." ++ slice 3 6 digits ++ "." ++ slice 6 9 digits ++ "-"
      ++ slice_from 9 digits /\
  format_cpf (re_sub_nondigits (format_cpf x)) = format_cpf x.
Proof.
  intros Hlen digits. split.
  - unfold format_cpf. rewrite Hlen. reflexivity.
  - rewrite (format_cpf_digits x Hlen).
    unfold format_cpf. rewrite re_sub_nondigits_idempotent. rewrite Hlen. reflexivity.
Qed.

Lemma format_cpf_roundtrip_witness :
  String.length (re_sub_nondigits "529 982 247/25") = 11%nat /\
  format_cpf "529 982 247/25" = "529.982.247-25" /\
  format_cpf (re_sub_nondigits (format_cpf "529 982 247/25")) = format_cpf "529 982 247/25".
Proof.
  split; [reflexivity|apply (format_cpf_roundtrip "529 982 247/25"); reflexivity].
Defined.

Example format_cpf_groups : format_cpf "52998224725" = "529.982.247-25".
Proof. reflexivity. Qed.

Example format_cpf_lenient : format_cpf "12345" = "12345".
Proof. reflexivity. Qed.

(** ** The CPF validator *)

Lemma missing_digits_11 s :
  String.length (re_sub_nondigits s) = 11%nat -> missing (Some s) = false.
Proof. destruct s; [discriminate|reflexivity]. Qed.

Lemma validate_cpf_repeated s c :
  re_sub_nondigits s = str_mul (String c EmptyString) 11 -> validate_cpf s = false.
Proof.
  intros H. unfold validate_cpf. rewrite H. simpl.
  rewrite Ascii.eqb_refl. reflexivity.
Qed.

(** C10. A national id whose digits are eleven copies of one digit is refused
    by [validate_cpf], and [create_customer] answers 400 to it and stores
    nothing (with the invalid-CPF message when name and phone are given); the
    guard is what refuses ['11111111111'], whose last two digits are the check
    digits the checksum arithmetic computes. *)
Theorem validate_cpf_rejects_repeated_digit
    (data : CreateCustomerData.t) (s : string) (c : ascii) (w : World) :
  CreateCustomerData.cpf data = Some s ->
  re_sub_nondigits s = str_mul (String c EmptyString) 11 ->
  validate_cpf s = false /\
  (exists msg, create_customer data w = (mkResponse (Error msg) 400, w)) /\
  (missing (CreateCustomerData.full_name data) = false ->
   missing (CreateCustomerData.phone data) = false ->
   create_customer data w = (mkResponse (Error "CPF inválido") 400, w)) /\
  (let '(digit1, digit2) := check_digits "11111111111" in
   slice_from 9 "11111111111" = str_of_int digit1 ++ str_of_int digit2).
Proof.
  intros Hcpf Hrep.
  assert (Hlen : String.length (re_sub_nondigits s) = 11%nat) by (rewrite Hrep; reflexivity).
  assert (Hbad : validate_cpf (re_sub_nondigits s) = false).
  { apply (validate_cpf_repeated _ c). rewrite re_sub_nondigits_idempotent. exact Hrep. }
  assert (Hrun : missing (CreateCustomerData.full_name data) = false ->
                 missing (CreateCustomerData.phone data) = false ->
                 create_customer data w = (mkResponse (Error "CPF inválido") 400, w)).
  { intros Hn Hp. unfold create_customer, try_except.
    rewrite Hn, Hcpf, (missing_digits_11 _ Hlen), Hp. unfold get_default at 1.
    rewrite Hbad. reflexivity. }
  split; [exact (validate_cpf_repeated s c Hrep)|].
  split; [|split; [exact Hrun|reflexivity]].
  destruct (missing (CreateCustomerData.full_name data)) eqn:Hn.
  - eexists. unfold create_customer, try_except. rewrite Hn. reflexivity.
  - destruct (missing (CreateCustomerData.phone data)) eqn:Hp.
    + eexists. unfold create_customer, try_except.
      rewrite Hn, Hcpf, (missing_digits_11 _ Hlen), Hp. reflexivity.
    + eexists. apply Hrun; reflexivity.
Qed.

Lemma validate_cpf_rejects_repeated_digit_witness :
  validate_cpf "111.111.111-11" = false /\
  (exists msg, create_customer (sample_registration "111.111.111-11" None) empty_world
               = (mkResponse (Error msg) 400, empty_world)) /\
  (missing (CreateCustomerData.full_name (sample_registration "111.111.111-11" None)) = false ->
   missing (CreateCustomerData.phone (sample_registration "111.111.111-11" None)) = false ->
   create_customer (sample_registration "111.111.111-11" None) empty_world
   = (mkResponse (Error "CPF inválido") 400, empty_world)) /\
  (let '(digit1, digit2) := check_digits "11111111111" in
   slice_from 9 "11111111111" = str_of_int digit1 ++ str_of_int digit2).
Proof.
  apply (validate_cpf_rejects_repeated_digit
           (sample_registration "111.111.111-11" None) "111.111.111-11" "1"%char empty_world);
    reflexivity.
Defined.

Example validate_cpf_accepts : validate_cpf "529.982.247-25" = true.
Proof. reflexivity. Qed.

Example validate_cpf_bad_checksum : validate_cpf "529.982.247-26" = false.
Proof. reflexivity. Qed.

(** ** The benefit engine, once the policy is known *)

Lemma get_discount_run w config self :
  current_config w config ->
  get_discount self w = (Returns (discount_for config (Customer.points self)), w).
Proof.
  intros Hc. unfold get_discount, bind.
  rewrite (get_current_config_found _ _ Hc), (get_level_run _ _ _ Hc). reflexivity.
Qed.

Lemma int_floordiv_run a b w :
  Qeq_bool b 0 = false -> int_floordiv a b w = (Returns (Qfloor (a / b)), w).
Proof. unfold int_floordiv. intros ->. reflexivity. Qed.

Lemma int_floordiv_zero a b w :
  Qeq_bool b 0 = true -> int_floordiv a b w = (Raises ZeroDivisionError, w).
Proof. unfold int_floordiv. intros ->. reflexivity. Qed.

Lemma add_points_run w config self amount_spent :
  current_config w config ->
  Qeq_bool (LoyaltyConfig.points_per_real config) 0 = false ->
  add_points self amount_spent w =
    (Returns (Qfloor (amount_spent / LoyaltyConfig.points_per_real config),
              credited config (utcnow w) self amount_spent), w).
Proof.
  intros Hc Hnz. unfold add_points, bind.
  rewrite (get_current_config_found _ _ Hc).
  rewrite if_same, (int_floordiv_run _ _ _ Hnz). unfold ret at 1.
  rewrite (get_level_run _ config _ Hc). reflexivity.
Qed.

Lemma add_points_zero w config self amount_spent :
  current_config w config ->
  Qeq_bool (LoyaltyConfig.points_per_real config) 0 = true ->
  add_points self amount_spent w = (Raises ZeroDivisionError, w).
Proof.
  intros Hc Hz. unfold add_points, bind.
  rewrite (get_current_config_found _ _ Hc).
  rewrite if_same, (int_floordiv_zero _ _ _ Hz). reflexivity.
Qed.

Lemma calculate_benefit_value_run w config self amount_spent :
  current_config w config ->
  Qeq_bool (LoyaltyConfig.points_per_real config) 0 = false ->
  calculate_benefit_value self amount_spent w =
    (Returns (benefit config (utcnow w) self amount_spent), w).
Proof.
  intros Hc Hnz. unfold calculate_benefit_value, benefit, bind.
  rewrite (get_current_config_found _ _ Hc).
  destruct (_ =? "discount")%string; [|destruct (_ =? "cashback")%string].
  - rewrite (get_discount_run _ _ _ Hc). reflexivity.
  - rewrite (get_discount_run _ _ _ Hc). reflexivity.
  - rewrite (add_points_run _ _ _ _ Hc Hnz). reflexivity.
Qed.

Lemma customer_to_dict_run w config self :
  current_config w config ->
  customer_to_dict self w = (Returns (dict_for config self), w).
Proof.
  intros Hc. unfold customer_to_dict, bind.
  rewrite (get_current_config_found _ _ Hc), (get_discount_run _ _ _ Hc),
    (points_to_next_level_run _ _ _ Hc). reflexivity.
Qed.

Lemma add_transaction_run w config customer_id customer data :
  current_config w config ->
  find (fun c => Customer.id c =? customer_id)%Z (customers w) = Some customer ->
  Qle_bool (get_default (TransactionData.amount data) 0%Q) 0 = false ->
  Qeq_bool (LoyaltyConfig.points_per_real config) 0 = false ->
  add_transaction customer_id data w =
    (mkResponse
       (TransactionJson (posted_transaction config w customer_id customer data)
          (dict_for config (posted_customer config w customer data))) 201,
     mkWorld (store_customer (posted_customer config w customer data) (customers w))
             (transactions w ++ [posted_transaction config w customer_id customer data])%list
             (configs w) (utcnow w)).
Proof.
  intros Hc Hfind Hpos Hnz.
  unfold add_transaction, try_except, bind at 1, get_or_404, bind at 1, get_world.
  rewrite Hfind. unfold ret at 1. rewrite Hpos.
  unfold bind at 1. rewrite (add_points_run _ _ _ _ Hc Hnz).
  unfold bind at 1. rewrite (get_current_config_found _ _ Hc).
  unfold bind at 1. rewrite (calculate_benefit_value_run _ _ _ _ Hc Hnz).
  unfold posted_transaction, posted_customer, store_customer.
  destruct (benefit config (utcnow w) _ _) as [v c2] eqn:Hb.
  unfold bind at 1, get_world, bind at 1, insert_transaction, bind at 1, get_world,
    put_world, bind at 1, commit_customer, bind at 1, get_world, put_world. simpl.
  unfold bind. rewrite (customer_to_dict_run _ config); [reflexivity|].
  exact Hc.
Qed.

(** ** Posting a transaction *)

Lemma add_transaction_invalid_amount w customer_id customer data :
  find (fun c => Customer.id c =? customer_id)%Z (customers w) = Some customer ->
  Qle_bool (get_default (TransactionData.amount data) 0%Q) 0 = true ->
  add_transaction customer_id data w =
    (mkResponse (Error "Valor deve ser maior que zero") 400, w).
Proof.
  intros Hfind Hle.
  unfold add_transaction, try_except, bind at 1, get_or_404, bind at 1, get_world.
  rewrite Hfind. unfold ret at 1. rewrite Hle. reflexivity.
Qed.

(** C6. A transaction whose amount is zero or negative (or absent, read as 0)
    is answered 400 for an existing customer, and the store is left as it
    was: the customer row keeps its points, total, tier and last visit, and
    no transaction row is added. *)
Theorem add_transaction_rejects_nonpositive
    (w : World) (customer_id : Z) (customer : Customer.t) (data : TransactionData.t) :
  find (fun c => Customer.id c =? customer_id)%Z (customers w) = Some customer ->
  (get_default (TransactionData.amount data) 0 <= 0)%Q ->
  exists w',
    add_transaction customer_id data w =
      (mkResponse (Error "Valor deve ser maior que zero") 400, w') /\
    w' = w /\
    find (fun c => Customer.id c =? customer_id)%Z (customers w') = Some customer /\
    transactions w' = transactions w.
Proof.
  intros Hfind Hle. exists w.
  split; [|repeat split; assumption].
  apply (add_transaction_invalid_amount _ _ _ _ Hfind).
  apply Qle_bool_iff. exact Hle.
Qed.

Lemma add_transaction_rejects_nonpositive_witness :
  exists w',
    add_transaction 1 (TransactionData.Build (Some (-5)%Q) None)
      (sample_world (default_config 1 0) 120)
    = (mkResponse (Error "Valor deve ser maior que zero") 400, w') /\
    w' = sample_world (default_config 1 0) 120 /\
    find (fun c => Customer.id c =? 1)%Z (customers w') = Some (sample_customer 120) /\
    transactions w' = transactions (sample_world (default_config 1 0) 120).
Proof.
  apply (add_transaction_rejects_nonpositive
           (sample_world (default_config 1 0) 120) 1 (sample_customer 120)
           (TransactionData.Build (Some (-5)%Q) None)).
  - reflexivity.
  - simpl. unfold Qle. simpl. lia.
Defined.

Example add_transaction_rejects_zero :
  add_transaction 1 (TransactionData.Build (Some 0%Q) None) (sample_world (default_config 1 0) 120)
  = (mkResponse (Error "Valor deve ser maior que zero") 400,
     sample_world (default_config 1 0) 120).
Proof. reflexivity. Qed.

(** For an unknown customer the route answers 500, the [NotFound] raised by
    [get_or_404] being caught by the handler; the store is untouched too. *)
Lemma add_transaction_unknown_customer w customer_id data :
  find (fun c => Customer.id c =? customer_id)%Z (customers w) = None ->
  add_transaction customer_id data w = (mkResponse (ErrorOf NotFound) 500, w).
Proof.
  intros Hfind. unfold add_transaction, try_except, bind at 1, get_or_404, bind at 1, get_world.
  rewrite Hfind. reflexivity.
Qed.

(** A zero [points_per_real] makes [//] raise before anything is changed. *)
Lemma add_transaction_zero_rate w config customer_id customer data :
  current_config w config ->
  find (fun c => Customer.id c =? customer_id)%Z (customers w) = Some customer ->
  Qle_bool (get_default (TransactionData.amount data) 0%Q) 0 = false ->
  Qeq_bool (LoyaltyConfig.points_per_real config) 0 = true ->
  add_transaction customer_id data w = (mkResponse (ErrorOf ZeroDivisionError) 500, w).
Proof.
  intros Hc Hfind Hpos Hz.
  unfold add_transaction, try_except, bind at 1, get_or_404, bind at 1, get_world.
  rewrite Hfind. unfold ret at 1. rewrite Hpos.
  unfold bind at 1. rewrite (add_points_zero _ _ _ _ Hc Hz). reflexivity.
Qed.

Lemma find_store_customer rows k c c' :
  find (fun r => Customer.id r =? k)%Z rows = Some c ->
  Customer.id c' = k ->
  find (fun r => Customer.id r =? k)%Z (store_customer c' rows) = Some c'.
Proof.
  intros Hfind Hid. unfold store_customer. subst k.
  induction rows as [|r rows IH]; simpl in *; [discriminate|].
  destruct (Customer.id r =? Customer.id c')%Z eqn:Hr.
  - simpl. rewrite Z.eqb_refl. reflexivity.
  - simpl. rewrite Hr. apply IH. exact Hfind.
Qed.

Lemma find_customer_id rows k c :
  find (fun r => Customer.id r =? k)%Z rows = Some c -> Customer.id c = k.
Proof. intros H. apply find_some in H. destruct H as [_ H]. apply Z.eqb_eq. exact H. Qed.

Lemma credited_id config now self amount :
  Customer.id (credited config now self amount) = Customer.id self.
Proof. reflexivity. Qed.

(** In the discount and cashback modes the customer is credited once. *)
Lemma posted_customer_percent_mode config w customer data :
  percent_mode config = true ->
  posted_customer config w customer data =
    credited config (utcnow w) customer (get_default (TransactionData.amount data) 0%Q).
Proof.
  unfold percent_mode, posted_customer, benefit. intros H.
  destruct (_ =? "discount")%string; [reflexivity|].
  destruct (_ =? "cashback")%string; [reflexivity|discriminate].
Qed.

(** In every other mode [calculate_benefit_value] calls [add_points] again:
    the customer is credited twice for the one transaction. *)
Lemma posted_customer_points_mode config w customer data :
  percent_mode config = false ->
  let amount := get_default (TransactionData.amount data) 0%Q in
  posted_customer config w customer data =
    credited config (utcnow w) (credited config (utcnow w) customer amount) amount.
Proof.
  unfold percent_mode, posted_customer, benefit. intros H.
  destruct (_ =? "discount")%string; [discriminate|].
  destruct (_ =? "cashback")%string; [discriminate|reflexivity].
Qed.

(** The customer row after a successful post, in the discount and cashback
    modes: the points grow by the floor of amount over rate, the total by the
    amount, and the tier is the one of the new points. *)
Lemma add_transaction_percent_mode_credits_once
    (w : World) (config : LoyaltyConfig.t) (customer_id : Z) (customer : Customer.t)
    (data : TransactionData.t) :
  current_config w config ->
  percent_mode config = true ->
  find (fun c => Customer.id c =? customer_id)%Z (customers w) = Some customer ->
  Qle_bool (get_default (TransactionData.amount data) 0%Q) 0 = false ->
  Qeq_bool (LoyaltyConfig.points_per_real config) 0 = false ->
  let amount := get_default (TransactionData.amount data) 0%Q in
  let earned := Qfloor (amount / LoyaltyConfig.points_per_real config) in
  exists t d w' customer',
    add_transaction customer_id data w = (mkResponse (TransactionJson t d) 201, w') /\
    Transaction.points_earned t = earned /\
    find (fun c => Customer.id c =? customer_id)%Z (customers w') = Some customer' /\
    Customer.points customer' = Customer.points customer + earned /\
    Customer.total_spent customer' = (Customer.total_spent customer + amount)%Q /\
    Customer.level customer' = level_for config (Customer.points customer').
Proof.
  intros Hc Hmode Hfind Hpos Hnz amount earned.
  eexists _, _, _, _. split; [apply (add_transaction_run _ _ _ _ _ Hc Hfind Hpos Hnz)|].
  split; [reflexivity|]. cbn [customers].
  split.
  - apply (find_store_customer _ _ _ _ Hfind).
    rewrite (posted_customer_percent_mode _ _ _ _ Hmode), credited_id.
    exact (find_customer_id _ _ _ Hfind).
  - rewrite (posted_customer_percent_mode _ _ _ _ Hmode). repeat split.
Qed.

(** In the points mode (and under any mode name other than discount and
    cashback) the same post credits the customer twice, while the transaction
    row records the points of one credit. *)
Lemma add_transaction_points_mode_credits_twice
    (w : World) (config : LoyaltyConfig.t) (customer_id : Z) (customer : Customer.t)
    (data : TransactionData.t) :
  current_config w config ->
  percent_mode config = false ->
  find (fun c => Customer.id c =? customer_id)%Z (customers w) = Some customer ->
  Qle_bool (get_default (TransactionData.amount data) 0%Q) 0 = false ->
  Qeq_bool (LoyaltyConfig.points_per_real config) 0 = false ->
  let amount := get_default (TransactionData.amount data) 0%Q in
  let earned := Qfloor (amount / LoyaltyConfig.points_per_real config) in
  exists t d w' customer',
    add_transaction customer_id data w = (mkResponse (TransactionJson t d) 201, w') /\
    Transaction.points_earned t = earned /\
    Transaction.benefit_value t = inject_Z earned /\
    find (fun c => Customer.id c =? customer_id)%Z (customers w') = Some customer' /\
    Customer.points customer' = Customer.points customer + earned + earned /\
    Customer.total_spent customer' = (Customer.total_spent customer + amount + amount)%Q /\
    Customer.level customer' = level_for config (Customer.points customer').
Proof.
  intros Hc Hmode Hfind Hpos Hnz amount earned.
  eexists _, _, _, _. split; [apply (add_transaction_run _ _ _ _ _ Hc Hfind Hpos Hnz)|].
  split; [reflexivity|].
  split.
  { unfold posted_transaction, benefit. cbn [Transaction.benefit_value].
    unfold percent_mode in Hmode.
    destruct (_ =? "discount")%string; [discriminate|].
    destruct (_ =? "cashback")%string; [discriminate|reflexivity]. }
  cbn [customers].
  split.
  - apply (find_store_customer _ _ _ _ Hfind).
    rewrite (posted_customer_points_mode _ _ _ _ Hmode), !credited_id.
    exact (find_customer_id _ _ _ Hfind).
  - rewrite (posted_customer_points_mode _ _ _ _ Hmode). repeat split.
Qed.

(** C1, on the code: under the default policy, which the resolver creates in
    points mode, a customer with 0 points and nothing spent who posts 100 is
    left with 20 points and a total of 200, not 10 and 100; the transaction
    row records 10 points earned, and the tier is Bronze. *)
Theorem scenario_A_default_policy_credits_twice :
  let w := mkWorld [sample_customer 0] [] [] 1700000000 in
  exists t d w' customer',
    add_transaction 1 (TransactionData.Build (Some 100%Q) None) w
      = (mkResponse (TransactionJson t d) 201, w') /\
    LoyaltyConfig.benefit_type (default_config 1 1700000000) = "points" /\
    configs w' = [default_config 1 1700000000] /\
    Transaction.points_earned t = 10 /\
    customers w' = [customer'] /\
    Customer.points customer' = 20 /\
    Customer.total_spent customer' = 200%Q /\
    Customer.level customer' = "Bronze".
Proof.
  eexists _, _, _, _. split; [vm_compute; reflexivity|].
  repeat split.
Qed.

(** In the discount mode the percent applied to a posted amount is the one
    of the tier of the points after the credit. *)
Lemma add_transaction_discount_uses_new_tier
    (w : World) (config : LoyaltyConfig.t) (customer_id : Z) (customer : Customer.t)
    (data : TransactionData.t) :
  LoyaltyConfig.benefit_type config = "discount" ->
  let amount := get_default (TransactionData.amount data) 0%Q in
  let earned := Qfloor (amount / LoyaltyConfig.points_per_real config) in
  Transaction.benefit_value (posted_transaction config w customer_id customer data) =
    (amount * (discount_for config (Customer.points customer + earned) / 100))%Q.
Proof.
  intros Hmode. unfold posted_transaction, benefit. rewrite Hmode. reflexivity.
Qed.

(** C2. With the default thresholds and rates and the discount mode, a
    customer holding 500 points who posts 10 ends with 501 points and the
    tier Prata (silver), and the transaction's benefit value is
    10 * (silver percent / 100) = 1: the percent is looked up with the points
    after the credit. *)
Theorem scenario_B_discount_after_promotion
    (w : World) (config_id created customer_id : Z) (customer : Customer.t)
    (description : option string) :
  current_config w (discount_policy config_id created) ->
  find (fun c => Customer.id c =? customer_id)%Z (customers w) = Some customer ->
  Customer.points customer = 500 ->
  exists t d w' customer',
    add_transaction customer_id (TransactionData.Build (Some 10%Q) description) w
      = (mkResponse (TransactionJson t d) 201, w') /\
    find (fun c => Customer.id c =? customer_id)%Z (customers w') = Some customer' /\
    Customer.points customer' = 501 /\
    Customer.level customer' = "Prata" /\
    Transaction.points_earned t = 1 /\
    Transaction.benefit_type t = "discount" /\
    Transaction.benefit_value t =
      (10 * (discount_for (discount_policy config_id created) (Customer.points customer') / 100))%Q /\
    discount_for (discount_policy config_id created) (Customer.points customer')
      = LoyaltyConfig.silver_discount (discount_policy config_id created) /\
    (Transaction.benefit_value t == 1)%Q.
Proof.
  intros Hc Hfind Hpts.
  destruct (add_transaction_percent_mode_credits_once w _ customer_id customer
              (TransactionData.Build (Some 10%Q) description) Hc eq_refl Hfind eq_refl eq_refl)
    as (t & d & w' & customer' & Hrun & Hearned & Hfind' & Hpoints & _ & Hlevel).
  cbn in Hearned, Hpoints. rewrite Hpts in Hpoints. change (500 + 1) with 501 in Hpoints.
  assert (Ht : t = posted_transaction (discount_policy config_id created) w customer_id customer
                     (TransactionData.Build (Some 10%Q) description)).
  { rewrite (add_transaction_run _ _ _ _ (TransactionData.Build (Some 10%Q) description)
               Hc Hfind eq_refl eq_refl) in Hrun.
    now injection Hrun as <- _ _. }
  exists t, d, w', customer'.
  split; [exact Hrun|]. split; [exact Hfind'|]. split; [exact Hpoints|].
  split; [rewrite Hlevel, Hpoints; reflexivity|].
  split; [exact Hearned|].
  split; [rewrite Ht; reflexivity|].
  rewrite Hpoints.
  assert (Hv : Transaction.benefit_value t =
               (10 * (discount_for (discount_policy config_id created) 501 / 100))%Q).
  { rewrite Ht.
    rewrite (add_transaction_discount_uses_new_tier w (discount_policy config_id created)
               customer_id customer _ eq_refl).
    cbn [get_default TransactionData.amount]. rewrite Hpts. reflexivity. }
  split; [exact Hv|]. split; [reflexivity|].
  rewrite Hv. reflexivity.
Qed.

Lemma scenario_B_discount_after_promotion_witness :
  exists t d w' customer',
    add_transaction 1 (TransactionData.Build (Some 10%Q) None)
        (sample_world (discount_policy 1 0) 500)
      = (mkResponse (TransactionJson t d) 201, w') /\
    find (fun c => Customer.id c =? 1)%Z (customers w') = Some customer' /\
    Customer.points customer' = 501 /\
    Customer.level customer' = "Prata" /\
    Transaction.points_earned t = 1 /\
    Transaction.benefit_type t = "discount" /\
    Transaction.benefit_value t =
      (10 * (discount_for (discount_policy 1 0) (Customer.points customer') / 100))%Q /\
    discount_for (discount_policy 1 0) (Customer.points customer')
      = LoyaltyConfig.silver_discount (discount_policy 1 0) /\
    (Transaction.benefit_value t == 1)%Q.
Proof.
  apply (scenario_B_discount_after_promotion
           (sample_world (discount_policy 1 0) 500) 1 0 1 (sample_customer 500) None);
    reflexivity.
Defined.

(** The promotion inside the transaction: from 499 points, still Bronze, a
    post of 10 is paid at the silver rate. *)
Example discount_at_promotion :
  exists t d w',
    add_transaction 1 (TransactionData.Build (Some 10%Q) None)
        (sample_world (discount_policy 1 0) 499)
      = (mkResponse (TransactionJson t d) 201, w') /\
    level_for (discount_policy 1 0) 499 = "Bronze" /\
    CustomerDict.level d = "Prata" /\
    (Transaction.benefit_value t == 1)%Q.
Proof.
  eexists _, _, _. split; [vm_compute; reflexivity|]. repeat split.
Qed.

(** ** Discount and cashback *)

Lemma same_but_label_refl rows : Forall2 same_but_label rows rows.
Proof. induction rows; constructor; [repeat split|assumption]. Qed.

Lemma calculate_benefit_value_percent w config self amount_spent :
  current_config w config ->
  percent_mode config = true ->
  calculate_benefit_value self amount_spent w =
    (Returns ((amount_spent * (discount_for config (Customer.points self) / 100))%Q, self), w).
Proof.
  intros Hc Hmode. unfold calculate_benefit_value, bind.
  rewrite (get_current_config_found _ _ Hc). unfold percent_mode in Hmode.
  destruct (_ =? "discount")%string; [|destruct (_ =? "cashback")%string; [|discriminate]];
    rewrite (get_discount_run _ _ _ Hc); reflexivity.
Qed.

Section DiscountVersusCashback.
(** Two stores that differ in the policy table only, where the current
    policies are [config] in the discount and in the cashback mode. *)
Variables (rows : list Customer.t) (ledger : list Transaction.t) (now : Z).
Variables (table_d table_c : list LoyaltyConfig.t) (config : LoyaltyConfig.t).

Let wd := mkWorld rows ledger table_d now.
Let wc := mkWorld rows ledger table_c now.
Let config_d := LoyaltyConfig.with_benefit_type "discount" config.
Let config_c := LoyaltyConfig.with_benefit_type "cashback" config.

Hypothesis current_d : current_config wd config_d.
Hypothesis current_c : current_config wc config_c.

(** C7. With the policy in the discount mode or in the cashback mode, all
    else equal, [calculate_benefit_value] returns the same value,
    amount * (percent of the customer's tier / 100), and leaves the
    customer as it is; and [add_transaction] answers with the same status,
    stores the same customer rows, and appends transactions that differ at
    most in the mode label. *)
Theorem discount_and_cashback_agree
    (self : Customer.t) (amount_spent : Q) (customer_id : Z) (data : TransactionData.t) :
  let value := (amount_spent * (discount_for config (Customer.points self) / 100))%Q in
  calculate_benefit_value self amount_spent wd = (Returns (value, self), wd) /\
  calculate_benefit_value self amount_spent wc = (Returns (value, self), wc) /\
  status (fst (add_transaction customer_id data wd))
    = status (fst (add_transaction customer_id data wc)) /\
  customers (snd (add_transaction customer_id data wd))
    = customers (snd (add_transaction customer_id data wc)) /\
  Forall2 same_but_label
    (transactions (snd (add_transaction customer_id data wd)))
    (transactions (snd (add_transaction customer_id data wc))).
Proof.
  intros value.
  split; [exact (calculate_benefit_value_percent wd config_d self amount_spent current_d eq_refl)|].
  split; [exact (calculate_benefit_value_percent wc config_c self amount_spent current_c eq_refl)|].
  destruct (find (fun c => Customer.id c =? customer_id)%Z rows) as [customer|] eqn:Hfind.
  2:{ rewrite (add_transaction_unknown_customer wd customer_id data Hfind),
        (add_transaction_unknown_customer wc customer_id data Hfind).
      repeat split. apply same_but_label_refl. }
  destruct (Qle_bool (get_default (TransactionData.amount data) 0%Q) 0) eqn:Hpos.
  { rewrite (add_transaction_invalid_amount wd customer_id customer data Hfind Hpos),
      (add_transaction_invalid_amount wc customer_id customer data Hfind Hpos).
    repeat split. apply same_but_label_refl. }
  destruct (Qeq_bool (LoyaltyConfig.points_per_real config) 0) eqn:Hz.
  { rewrite (add_transaction_zero_rate wd config_d customer_id customer data
               current_d Hfind Hpos Hz),
      (add_transaction_zero_rate wc config_c customer_id customer data
               current_c Hfind Hpos Hz).
    repeat split. apply same_but_label_refl. }
  rewrite (add_transaction_run wd config_d customer_id customer data current_d Hfind Hpos Hz),
    (add_transaction_run wc config_c customer_id customer data current_c Hfind Hpos Hz).
  cbn [fst snd status customers transactions].
  split; [reflexivity|]. split; [reflexivity|].
  apply Forall2_app; [apply same_but_label_refl|].
  constructor; [repeat split|constructor].
Qed.
End DiscountVersusCashback.

Lemma discount_and_cashback_agree_witness :
  let wd := sample_world (LoyaltyConfig.with_benefit_type "discount" (default_config 1 0)) 1600 in
  let wc := sample_world (LoyaltyConfig.with_benefit_type "cashback" (default_config 1 0)) 1600 in
  let data := TransactionData.Build (Some 80%Q) (Some "almoço") in
  let value := (80 * (discount_for (default_config 1 0) 1600 / 100))%Q in
  calculate_benefit_value (sample_customer 1600) 80 wd = (Returns (value, sample_customer 1600), wd) /\
  calculate_benefit_value (sample_customer 1600) 80 wc = (Returns (value, sample_customer 1600), wc) /\
  status (fst (add_transaction 1 data wd)) = status (fst (add_transaction 1 data wc)) /\
  customers (snd (add_transaction 1 data wd)) = customers (snd (add_transaction 1 data wc)) /\
  Forall2 same_but_label
    (transactions (snd (add_transaction 1 data wd)))
    (transactions (snd (add_transaction 1 data wc))).
Proof.
  intros wd wc data value.
  apply (discount_and_cashback_agree [sample_customer 1600] [] 1700000000
           [LoyaltyConfig.with_benefit_type "discount" (default_config 1 0)]
           [LoyaltyConfig.with_benefit_type "cashback" (default_config 1 0)]
           (default_config 1 0) eq_refl eq_refl (sample_customer 1600) 80%Q 1 data).
Defined.

(** The label is what differs. *)
Example discount_and_cashback_labels :
  map Transaction.benefit_type
    (transactions (snd (add_transaction 1 (TransactionData.Build (Some 80%Q) None)
       (sample_world (LoyaltyConfig.with_benefit_type "discount" (default_config 1 0)) 1600))))
    = ["discount"] /\
  map Transaction.benefit_type
    (transactions (snd (add_transaction 1 (TransactionData.Build (Some 80%Q) None)
       (sample_world (LoyaltyConfig.with_benefit_type "cashback" (default_config 1 0)) 1600))))
    = ["cashback"].
Proof. split; reflexivity. Qed.

(** ** The cached tier *)

Lemma customer_to_dict_total w self :
  exists config w',
    customer_to_dict self w = (Returns (dict_for config self), w') /\
    current_config w' config /\ customers w' = customers w /\
    transactions w' = transactions w /\ utcnow w' = utcnow w.
Proof.
  destruct (get_current_config_total w) as (config & w' & Hrun & Hc & Hrest).
  exists config, w'. split; [|split; [exact Hc|exact Hrest]].
  unfold customer_to_dict, bind. rewrite Hrun.
  rewrite (get_discount_run _ _ _ Hc), (points_to_next_level_run _ _ _ Hc). reflexivity.
Qed.

(** Every successful registration stores the column default Bronze,
    whatever the initial points. *)
Lemma create_customer_stores_bronze w data :
  status (fst (create_customer data w)) = 201 ->
  exists customer,
    customers (snd (create_customer data w)) = (customers w ++ [customer])%list /\
    Customer.points customer = get_default (CreateCustomerData.points data) 0 /\
    Customer.level customer = "Bronze".
Proof.
  remember (create_customer data w) as res eqn:E.
  unfold create_customer, try_except in E.
  destruct (missing (CreateCustomerData.full_name data)); [subst res; discriminate|].
  destruct (missing (CreateCustomerData.cpf data)); [subst res; discriminate|].
  destruct (missing (CreateCustomerData.phone data)); [subst res; discriminate|].
  destruct (negb (validate_cpf _)); [subst res; discriminate|].
  unfold bind at 1, query_customer_by_cpf, bind at 1, get_world, ret at 1 in E.
  destruct (find _ (customers w)); [subst res; discriminate|].
  unfold bind at 1, bind at 1, insert_customer, bind at 1, get_world, put_world in E.
  unfold bind in E.
  match type of E with
  | context [customer_to_dict ?c ?w1] =>
      destruct (customer_to_dict_total w1 c) as (config & w' & Hrun & _ & Hrows & _)
  end.
  rewrite Hrun in E. subst res. unfold ret. cbn [fst snd status]. intros _.
  eexists. rewrite Hrows. cbn [customers].
  split; [reflexivity|]. split; reflexivity.
Qed.

(** C3, on the code: registering a customer with 600 initial points under the
    default policy stores the tier Bronze, while [get_level] gives Prata for
    600 points: the cached tier is stale from the start. *)
Theorem create_customer_tier_stale :
  exists d w' customer,
    create_customer (sample_registration "529.982.247-25" (Some 600)) empty_world
      = (mkResponse (CustomerJson d) 201, w') /\
    customers w' = [customer] /\
    Customer.points customer = 600 /\
    Customer.level customer = "Bronze" /\
    CustomerDict.level d = "Bronze" /\
    get_level customer w' = (Returns "Prata", w') /\
    ~ tier_cached w' customer.
Proof.
  eexists _, _, _. split; [vm_compute; reflexivity|].
  repeat split. unfold tier_cached. vm_compute. discriminate.
Qed.

(** The administrative edit of the points does recompute the tier. *)
Lemma update_customer_recomputes_tier
    (w : World) (config : LoyaltyConfig.t) (customer_id : Z) (customer : Customer.t)
    (data : UpdateCustomerData.t) (new_points : Z) :
  current_config w config ->
  find (fun c => Customer.id c =? customer_id)%Z (customers w) = Some customer ->
  UpdateCustomerData.points data = Some new_points ->
  exists d w' customer',
    update_customer customer_id data w = (mkResponse (CustomerJson d) 200, w') /\
    find (fun c => Customer.id c =? customer_id)%Z (customers w') = Some customer' /\
    Customer.points customer' = new_points /\
    Customer.level customer' = level_for config new_points /\
    tier_cached w' customer'.
Proof.
  intros Hc Hfind Hpts.
  unfold update_customer, try_except, bind at 1, get_or_404, bind at 1, get_world.
  rewrite Hfind, Hpts. unfold ret at 1.
  unfold bind at 1, bind at 1. rewrite (get_level_run _ _ _ Hc). unfold ret at 1.
  unfold bind at 1, commit_customer, bind at 1, get_world, put_world.
  set (edited := Customer.with_level _ _).
  set (w' := mkWorld _ _ _ _).
  assert (Hc' : current_config w' config) by exact Hc.
  unfold bind. rewrite (customer_to_dict_run _ _ _ Hc'). unfold ret.
  exists (dict_for config edited), w', edited.
  split; [reflexivity|].
  split.
  { apply (find_store_customer _ _ _ _ Hfind).
    unfold edited.
    destruct (UpdateCustomerData.full_name data), (UpdateCustomerData.phone data),
      (UpdateCustomerData.email data); cbn; exact (find_customer_id _ _ _ Hfind). }
  split; [reflexivity|]. split; [reflexivity|].
  unfold tier_cached. rewrite (get_level_run _ _ _ Hc'). reflexivity.
Qed.

(** So does a posted transaction, in every mode. *)
Lemma add_transaction_recomputes_tier
    (w : World) (config : LoyaltyConfig.t) (customer_id : Z) (customer : Customer.t)
    (data : TransactionData.t) :
  current_config w config ->
  find (fun c => Customer.id c =? customer_id)%Z (customers w) = Some customer ->
  Qle_bool (get_default (TransactionData.amount data) 0%Q) 0 = false ->
  Qeq_bool (LoyaltyConfig.points_per_real config) 0 = false ->
  exists customer',
    find (fun c => Customer.id c =? customer_id)%Z
      (customers (snd (add_transaction customer_id data w))) = Some customer' /\
    tier_cached (snd (add_transaction customer_id data w)) customer'.
Proof.
  intros Hc Hfind Hpos Hnz.
  rewrite (add_transaction_run _ _ _ _ _ Hc Hfind Hpos Hnz). cbn [snd customers].
  set (w' := mkWorld _ _ _ _).
  assert (Hc' : current_config w' config) by exact Hc.
  exists (posted_customer config w customer data). split.
  - apply (find_store_customer _ _ _ _ Hfind).
    unfold posted_customer, benefit.
    destruct (_ =? "discount")%string; [|destruct (_ =? "cashback")%string];
      exact (find_customer_id _ _ _ Hfind).
  - unfold tier_cached. rewrite (get_level_run _ _ _ Hc').
    unfold posted_customer, benefit.
    destruct (_ =? "discount")%string; [|destruct (_ =? "cashback")%string]; reflexivity.
Qed.

(** * Further properties of the code *)

(** ** The display formatters on every input *)

(** A string of ten characters, spelled out. *)
Lemma length_10_inv s :
  String.length s = 10%nat ->
  exists c0 c1 c2 c3 c4 c5 c6 c7 c8 c9,
    s = String c0 (String c1 (String c2 (String c3 (String c4 (String c5
        (String c6 (String c7 (String c8 (String c9 EmptyString))))))))).
Proof.
  intros H.
  do 10 (destruct s as [|? s]; [discriminate H|]).
  destruct s; [|discriminate H].
  repeat eexists.
Qed.

(** Splits the facts [is_digit c = true] out of [all_digits] of a spelled-out
    string and rewrites the goal with them. *)
Ltac use_digits Hd :=
  simpl in Hd;
  repeat match type of Hd with
         | (_ && _)%bool = true => apply andb_prop in Hd; destruct Hd as [? Hd]
         end;
  repeat match goal with H : is_digit _ = true |- _ => rewrite H; clear H end.

Lemma format_cpf_length_14 x :
  String.length (re_sub_nondigits x) = 11%nat -> String.length (format_cpf x) = 14%nat.
Proof.
  intros Hlen. unfold format_cpf. rewrite Hlen. simpl Nat.eqb. cbv iota.
  destruct (length_11_inv _ Hlen) as (c0&c1&c2&c3&c4&c5&c6&c7&c8&c9&c10&->).
  reflexivity.
Qed.

Lemma format_cpf_digits_any x :
  re_sub_nondigits (format_cpf x) = re_sub_nondigits x.
Proof.
  destruct (Nat.eq_dec (String.length (re_sub_nondigits x)) 11) as [Hlen|Hlen].
  - apply format_cpf_digits; exact Hlen.
  - rewrite (format_cpf_unchanged x Hlen). reflexivity.
Qed.

(** X1. On every input [format_cpf] keeps the digits, so stripping the
    non-digits of a formatted id gives back the stripped id; formatting twice
    is formatting once; and when the id has eleven digits the formatted text
    has fourteen characters. *)
Theorem format_cpf_keeps_digits (x : string) :
  re_sub_nondigits (format_cpf x) = re_sub_nondigits x /\
  format_cpf (format_cpf x) = format_cpf x /\
  (String.length (re_sub_nondigits x) = 11%nat -> String.length (format_cpf x) = 14%nat).
Proof.
  split; [apply format_cpf_digits_any|]. split; [|apply format_cpf_length_14].
  unfold format_cpf at 1. rewrite format_cpf_digits_any.
  destruct (String.length (re_sub_nondigits x) =? 11)%nat eqn:Hlen; [|reflexivity].
  unfold format_cpf. rewrite Hlen. reflexivity.
Qed.

Lemma format_phone_digits x :
  re_sub_nondigits (format_phone x) = re_sub_nondigits x.
Proof.
  unfold format_phone.
  pose proof (re_sub_nondigits_all_digits x) as Hd.
  destruct (String.length (re_sub_nondigits x) =? 11)%nat eqn:H11.
  - apply Nat.eqb_eq in H11.
    destruct (length_11_inv _ H11) as (c0&c1&c2&c3&c4&c5&c6&c7&c8&c9&c10&E).
    rewrite E in Hd |- *.
    cbn [slice slice_from String.length Nat.sub substring append re_sub_nondigits].
    use_digits Hd. reflexivity.
  - destruct (String.length (re_sub_nondigits x) =? 10)%nat eqn:H10; [|reflexivity].
    apply Nat.eqb_eq in H10.
    destruct (length_10_inv _ H10) as (c0&c1&c2&c3&c4&c5&c6&c7&c8&c9&E).
    rewrite E in Hd |- *.
    cbn [slice slice_from String.length Nat.sub substring append re_sub_nondigits].
    use_digits Hd. reflexivity.
Qed.

(** X2. On every input [format_phone] keeps the digits and formatting twice
    is formatting once; eleven digits give the fifteen characters of
    (XX) XXXXX-XXXX, ten digits the fourteen of (XX) XXXX-XXXX, and any other
    text is returned as it is. *)
Theorem format_phone_keeps_digits (x : string) :
  re_sub_nondigits (format_phone x) = re_sub_nondigits x /\
  format_phone (format_phone x) = format_phone x /\
  (String.length (re_sub_nondigits x) = 11%nat -> String.length (format_phone x) = 15%nat) /\
  (String.length (re_sub_nondigits x) = 10%nat -> String.length (format_phone x) = 14%nat) /\
  (String.length (re_sub_nondigits x) <> 11%nat ->
   String.length (re_sub_nondigits x) <> 10%nat -> format_phone x = x).
Proof.
  split; [apply format_phone_digits|].
  split.
  { unfold format_phone at 1. rewrite format_phone_digits.
    destruct (String.length (re_sub_nondigits x) =? 11)%nat eqn:H11.
    - unfold format_phone. rewrite H11. reflexivity.
    - destruct (String.length (re_sub_nondigits x) =? 10)%nat eqn:H10; [|reflexivity].
      unfold format_phone. rewrite H11, H10. reflexivity. }
  split.
  { intros Hlen. unfold format_phone. rewrite Hlen. simpl Nat.eqb. cbv iota.
    destruct (length_11_inv _ Hlen) as (c0&c1&c2&c3&c4&c5&c6&c7&c8&c9&c10&->).
    reflexivity. }
  split.
  { intros Hlen. unfold format_phone. rewrite Hlen. simpl Nat.eqb. cbv iota.
    destruct (length_10_inv _ Hlen) as (c0&c1&c2&c3&c4&c5&c6&c7&c8&c9&->).
    reflexivity. }
  intros H11 H10. unfold format_phone.
  apply Nat.eqb_neq in H11, H10. rewrite H11, H10. reflexivity.
Qed.

Lemma format_phone_keeps_digits_witness :
  re_sub_nondigits (format_phone "11 99999 8888") = re_sub_nondigits "11 99999 8888" /\
  format_phone (format_phone "11 99999 8888") = format_phone "11 99999 8888" /\
  String.length (format_phone "11 99999 8888") = 15%nat /\
  String.length (format_phone "1133334444") = 14%nat /\
  format_phone "ramal 12" = "ramal 12".
Proof.
  pose proof (format_phone_keeps_digits "11 99999 8888") as (H1 & H2 & H3 & _).
  pose proof (format_phone_keeps_digits "1133334444") as (_ & _ & _ & H4 & _).
  pose proof (format_phone_keeps_digits "ramal 12") as (_ & _ & _ & _ & H5).
  split; [exact H1|]. split; [exact H2|].
  split; [apply H3; reflexivity|]. split; [apply H4; reflexivity|].
  apply H5; simpl; lia.
Defined.

Lemma format_cpf_keeps_digits_witness :
  re_sub_nondigits (format_cpf "529 982 247/25") = re_sub_nondigits "529 982 247/25" /\
  format_cpf (format_cpf "529 982 247/25") = format_cpf "529 982 247/25" /\
  String.length (format_cpf "529 982 247/25") = 14%nat.
Proof.
  pose proof (format_cpf_keeps_digits "529 982 247/25") as (H1 & H2 & H3).
  split; [exact H1|]. split; [exact H2|]. apply H3; reflexivity.
Defined.

(** ** The CPF validator and the check digits *)

(** X3. [validate_cpf] looks at the digits only: it gives the same verdict on
    a text, on its digits, and on its formatted display. *)
Theorem validate_cpf_ignores_formatting (x : string) :
  validate_cpf (re_sub_nondigits x) = validate_cpf x /\
  validate_cpf (format_cpf x) = validate_cpf x.
Proof.
  split.
  - unfold validate_cpf. rewrite re_sub_nondigits_idempotent. reflexivity.
  - unfold validate_cpf. rewrite format_cpf_digits_any. reflexivity.
Qed.

Lemma validate_cpf_length x :
  validate_cpf x = true -> String.length (re_sub_nondigits x) = 11%nat.
Proof.
  unfold validate_cpf.
  destruct (String.length (re_sub_nondigits x) =? 11)%nat eqn:H; [|discriminate].
  intros _. apply Nat.eqb_eq. exact H.
Qed.

(** A check digit is between 0 and 9. *)
Lemma check_digit_range (sum : Z) :
  let digit := 11 - sum mod 11 in
  0 <= (if digit >=? 10 then 0 else digit) <= 9.
Proof.
  intros digit. pose proof (Z.mod_pos_bound sum 11 ltac:(lia)) as Hm.
  destruct (Z.geb_spec digit 10); unfold digit in *; lia.
Qed.

Lemma digit_cases (d : Z) :
  0 <= d <= 9 ->
  d = 0 \/ d = 1 \/ d = 2 \/ d = 3 \/ d = 4 \/ d = 5 \/ d = 6 \/ d = 7 \/ d = 8 \/ d = 9.
Proof. lia. Qed.

(** A digit prints as one digit character, which reads back as the digit. *)
Lemma str_of_int_digit (d : Z) :
  0 <= d <= 9 ->
  exists c, str_of_int d = String c EmptyString /\ is_digit c = true /\ int_of_char c = d.
Proof.
  intros H. destruct (digit_cases d H) as [->|[->|[->|[->|[->|[->|[->|[->|[->| ->]]]]]]]]];
    eexists; repeat split.
Qed.

Lemma check_digits_range cpf :
  0 <= fst (check_digits cpf) <= 9 /\ 0 <= snd (check_digits cpf) <= 9.
Proof. unfold check_digits. cbn [fst snd]. split; apply check_digit_range. Qed.

(** An accepted id is its nine leading digits followed by their check digits. *)
Lemma validate_cpf_with_check_digits x :
  validate_cpf x = true ->
  re_sub_nondigits x = with_check_digits (slice 0 9 (re_sub_nondigits x)).
Proof.
  intros Hv. pose proof (validate_cpf_length x Hv) as Hlen.
  unfold validate_cpf in Hv. rewrite Hlen in Hv. simpl negb in Hv. cbv iota in Hv.
  destruct (length_11_inv _ Hlen) as (c0&c1&c2&c3&c4&c5&c6&c7&c8&c9&c10&E).
  rewrite E in Hv |- *. clear E Hlen.
  destruct (_ =? _)%string in Hv; [discriminate|].
  set (cpf := String c0 _) in Hv.
  destruct (check_digits cpf) as [digit1 digit2] eqn:Hcd.
  apply String.eqb_eq in Hv.
  pose proof (check_digits_range cpf) as [H1 H2]. rewrite Hcd in H1, H2. cbn [fst snd] in H1, H2.
  destruct (str_of_int_digit digit1 H1) as (k1 & Hs1 & _ & Hk1).
  destruct (str_of_int_digit digit2 H2) as (k2 & Hs2 & _ & Hk2).
  rewrite Hs1, Hs2 in Hv. subst cpf. cbn in Hv. injection Hv as -> ->.
  unfold with_check_digits.
  cbn [slice Nat.sub substring].
  match goal with |- _ = (?n ++ _) ++ _ => set (nine := n) end.
  assert (Hfst : fst (check_digits nine) = digit1).
  { apply (f_equal fst) in Hcd. exact Hcd. }
  rewrite Hfst, Hs1.
  assert (Hsnd : snd (check_digits (nine ++ String k1 EmptyString)) = digit2).
  { apply (f_equal snd) in Hcd. exact Hcd. }
  rewrite Hsnd, Hs2. reflexivity.
Qed.

(** X4. The check digits are a function of the nine leading digits: an
    accepted id is its nine leading digits followed by the two digits
    computed from them, so two accepted ids that agree on their nine leading
    digits have the same digits. *)
Theorem validate_cpf_check_digits_determined (x y : string) :
  validate_cpf x = true ->
  validate_cpf y = true ->
  slice 0 9 (re_sub_nondigits x) = slice 0 9 (re_sub_nondigits y) ->
  re_sub_nondigits x = with_check_digits (slice 0 9 (re_sub_nondigits x)) /\
  re_sub_nondigits x = re_sub_nondigits y.
Proof.
  intros Hx Hy Hnine.
  split; [apply validate_cpf_with_check_digits; exact Hx|].
  rewrite (validate_cpf_with_check_digits x Hx), (validate_cpf_with_check_digits y Hy), Hnine.
  reflexivity.
Qed.

Lemma validate_cpf_check_digits_determined_witness :
  re_sub_nondigits "529.982.247-25" = with_check_digits (slice 0 9 (re_sub_nondigits "529.982.247-25")) /\
  re_sub_nondigits "529.982.247-25" = re_sub_nondigits "52998224725".
Proof.
  apply (validate_cpf_check_digits_determined "529.982.247-25" "52998224725"); reflexivity.
Defined.

(** A string of nine characters, spelled out. *)
Lemma length_9_inv s :
  String.length s = 9%nat ->
  exists c0 c1 c2 c3 c4 c5 c6 c7 c8,
    s = String c0 (String c1 (String c2 (String c3 (String c4 (String c5
        (String c6 (String c7 (String c8 EmptyString)))))))).
Proof.
  intros H.
  do 9 (destruct s as [|? s]; [discriminate H|]).
  destruct s; [|discriminate H].
  repeat eexists.
Qed.

(** X5. Completing any nine digits with their two check digits gives an id
    that [validate_cpf] accepts, unless the eleven digits are all the same
    one. *)
Theorem with_check_digits_accepted (nine : string) :
  String.length nine = 9%nat ->
  all_digits nine = true ->
  let cpf := with_check_digits nine in
  String.length cpf = 11%nat /\
  slice 0 9 cpf = nine /\
  validate_cpf cpf = negb (cpf =? str_mul (String (char_at 0 cpf) EmptyString) 11)%string.
Proof.
  intros Hlen Hd.
  destruct (length_9_inv _ Hlen) as (c0&c1&c2&c3&c4&c5&c6&c7&c8&->). clear Hlen.
  cbv zeta. unfold with_check_digits.
  set (nine := String c0 _) in *.
  pose proof (proj1 (check_digits_range nine)) as H1.
  destruct (str_of_int_digit _ H1) as (k1 & Hs1 & Hdig1 & _).
  rewrite Hs1.
  pose proof (proj2 (check_digits_range (nine ++ String k1 EmptyString))) as H2.
  destruct (str_of_int_digit _ H2) as (k2 & Hs2 & Hdig2 & _).
  rewrite Hs2.
  set (cpf := (nine ++ _) ++ _).
  assert (Hcpf : cpf = String c0 (String c1 (String c2 (String c3 (String c4 (String c5
                   (String c6 (String c7 (String c8 (String k1 (String k2 EmptyString)))))))))))
    by reflexivity.
  split; [rewrite Hcpf; reflexivity|]. split; [rewrite Hcpf; reflexivity|].
  assert (Hall : all_digits cpf = true).
  { rewrite Hcpf. simpl in Hd |- *.
    repeat match type of Hd with
           | (_ && _)%bool = true => apply andb_prop in Hd; destruct Hd as [? Hd]
           end.
    repeat match goal with H : is_digit _ = true |- _ => rewrite H; clear H end.
    reflexivity. }
  unfold validate_cpf. rewrite (re_sub_nondigits_fixed _ Hall).
  assert (Hl : String.length cpf = 11%nat) by (rewrite Hcpf; reflexivity).
  rewrite Hl. change (negb (11 =? 11)%nat) with false. cbv iota.
  destruct (cpf =? _)%string; [reflexivity|].
  assert (Hcd : check_digits cpf =
                (fst (check_digits nine), snd (check_digits (nine ++ String k1 EmptyString))))
    by reflexivity.
  rewrite Hcd, Hs1, Hs2, Hcpf. cbn [slice_from String.length Nat.sub substring append].
  rewrite String.eqb_refl. reflexivity.
Qed.

Lemma with_check_digits_accepted_witness :
  String.length (with_check_digits "529982247") = 11%nat /\
  slice 0 9 (with_check_digits "529982247") = "529982247" /\
  validate_cpf (with_check_digits "529982247") = true.
Proof.
  apply (with_check_digits_accepted "529982247"); reflexivity.
Defined.

Example with_check_digits_sample : with_check_digits "529982247" = "52998224725".
Proof. reflexivity. Qed.

(** ** Tier, percent and gap, from the policy the resolver returns *)

Lemma resolved_current w config w' :
  get_current_config w = (Returns config, w') ->
  current_config w' config /\ customers w' = customers w /\
  transactions w' = transactions w /\ utcnow w' = utcnow w.
Proof.
  intros Hrun. destruct (get_current_config_total w) as (c0 & w0 & Hrun0 & Hrest).
  rewrite Hrun0 in Hrun. injection Hrun as <- <-. exact Hrest.
Qed.

Lemma get_discount_resolved w config w' self :
  get_current_config w = (Returns config, w') ->
  get_discount self w = (Returns (discount_for config (Customer.points self)), w').
Proof.
  intros Hrun. destruct (resolved_current _ _ _ Hrun) as [Hc _].
  unfold get_discount, bind. rewrite Hrun, (get_level_run _ _ _ Hc). reflexivity.
Qed.

Lemma discount_for_in_table config p :
  In (level_for config p, discount_for config p) (discounts_table config).
Proof.
  unfold discount_for, level_for, discounts_table.
  case_tests; simpl; auto.
Qed.

Lemma discount_for_monotone config p q :
  percents_ordered config -> p <= q ->
  (discount_for config p <= discount_for config q)%Q.
Proof.
  intros (Hbs & Hsg & Hgd) Hpq. unfold discount_for, level_for.
  repeat match goal with
         | |- context [?a >=? ?b] => destruct (Z.geb_spec a b)
         end; cbn [dict_get String.eqb Ascii.eqb Bool.eqb]; try lia;
    eauto using Qle_refl, Qle_trans.
Qed.

(** X6. The percent [get_discount] returns is the entry of its table under
    the tier name [get_level] returns, so the fallback of the lookup is never
    taken; and when the percents are ordered bronze <= silver <= gold <=
    diamond, a customer with at least as many points gets at least the same
    percent. *)
Theorem get_discount_of_tier
    (w w' : World) (config : LoyaltyConfig.t) (self other : Customer.t) :
  get_current_config w = (Returns config, w') ->
  exists level percent,
    get_level self w = (Returns level, w') /\
    get_discount self w = (Returns percent, w') /\
    In (level, percent) (discounts_table config) /\
    (percents_ordered config ->
     Customer.points self <= Customer.points other ->
     exists percent',
       get_discount other w = (Returns percent', w') /\ (percent <= percent')%Q).
Proof.
  intros Hrun.
  exists (level_for config (Customer.points self)), (discount_for config (Customer.points self)).
  split; [apply get_level_resolved; exact Hrun|].
  split; [apply get_discount_resolved; exact Hrun|].
  split; [apply discount_for_in_table|].
  intros Hord Hle. eexists. split; [apply get_discount_resolved; exact Hrun|].
  apply discount_for_monotone; assumption.
Qed.

Lemma get_discount_of_tier_witness :
  exists level percent,
    get_level (sample_customer 700) empty_world
      = (Returns level, snd (get_current_config empty_world)) /\
    get_discount (sample_customer 700) empty_world
      = (Returns percent, snd (get_current_config empty_world)) /\
    In (level, percent) (discounts_table (default_config 1 1700000000)) /\
    (percents_ordered (default_config 1 1700000000) ->
     Customer.points (sample_customer 700) <= Customer.points (sample_customer 1500) ->
     exists percent',
       get_discount (sample_customer 1500) empty_world
         = (Returns percent', snd (get_current_config empty_world)) /\
       (percent <= percent')%Q).
Proof.
  apply (get_discount_of_tier empty_world (snd (get_current_config empty_world))
           (default_config 1 1700000000)).
  reflexivity.
Defined.

(** X7. Below the diamond threshold, under ordered thresholds, the gap
    [points_to_next_level] returns is exactly the number of points to the
    next promotion: with fewer additional points [get_level] gives the same
    tier, with that many it gives a strictly higher one. *)
Theorem points_to_next_level_promotes
    (w w' : World) (config : LoyaltyConfig.t) (self : Customer.t) :
  get_current_config w = (Returns config, w') ->
  thresholds_ordered config ->
  Customer.points self < LoyaltyConfig.diamond_threshold config ->
  exists gap level level',
    points_to_next_level self w = (Returns gap, w') /\
    get_level self w = (Returns level, w') /\
    0 < gap /\
    (forall k, 0 <= k < gap ->
       get_level (Customer.with_points (Customer.points self + k) self) w = (Returns level, w')) /\
    get_level (Customer.with_points (Customer.points self + gap) self) w = (Returns level', w') /\
    (tier_rank level < tier_rank level')%nat.
Proof.
  intros Hrun [Hsg Hgd] Hlt.
  set (gap := match first_unreached (Customer.points self) (policy_thresholds config) with
              | Some t => t - Customer.points self
              | None => 0
              end).
  exists gap, (level_for config (Customer.points self)),
    (level_for config (Customer.points self + gap)).
  split; [apply (points_to_next_level_resolved _ _ _ _ Hrun)|].
  split; [apply (get_level_resolved _ _ _ _ Hrun)|].
  assert (Hk : forall k, get_level (Customer.with_points (Customer.points self + k) self) w
                         = (Returns (level_for config (Customer.points self + k)), w'))
    by (intros k; exact (get_level_resolved w config w'
                           (Customer.with_points (Customer.points self + k) self) Hrun)).
  assert (Hgap : 0 < gap /\
                 (forall k, 0 <= k < gap ->
                    level_for config (Customer.points self + k)
                    = level_for config (Customer.points self)) /\
                 (tier_rank (level_for config (Customer.points self))
                  < tier_rank (level_for config (Customer.points self + gap)))%nat).
  { unfold gap, policy_thresholds, first_unreached.
    repeat match goal with
           | |- context [?a <? ?b] => destruct (Z.ltb_spec a b)
           end; try lia.
    all: split; [lia|]; split;
      [ intros k Hrange; unfold level_for;
        repeat match goal with
               | |- context [?a >=? ?b] => destruct (Z.geb_spec a b)
               end; try reflexivity; lia
      | unfold level_for;
        repeat match goal with
               | |- context [?a >=? ?b] => destruct (Z.geb_spec a b)
               end; vm_compute; try lia ]. }
  destruct Hgap as (Hpos & Hsame & Hup).
  split; [exact Hpos|].
  split; [intros k Hrange; rewrite Hk, (Hsame k Hrange); reflexivity|].
  split; [apply Hk|exact Hup].
Qed.

Lemma points_to_next_level_promotes_witness :
  exists gap level level',
    points_to_next_level (sample_customer 700) (sample_world (default_config 1 0) 700)
      = (Returns gap, sample_world (default_config 1 0) 700) /\
    get_level (sample_customer 700) (sample_world (default_config 1 0) 700)
      = (Returns level, sample_world (default_config 1 0) 700) /\
    0 < gap /\
    (forall k, 0 <= k < gap ->
       get_level (Customer.with_points (Customer.points (sample_customer 700) + k)
                    (sample_customer 700)) (sample_world (default_config 1 0) 700)
       = (Returns level, sample_world (default_config 1 0) 700)) /\
    get_level (Customer.with_points (Customer.points (sample_customer 700) + gap)
                 (sample_customer 700)) (sample_world (default_config 1 0) 700)
      = (Returns level', sample_world (default_config 1 0) 700) /\
    (tier_rank level < tier_rank level')%nat.
Proof.
  apply (points_to_next_level_promotes (sample_world (default_config 1 0) 700)
           (sample_world (default_config 1 0) 700) (default_config 1 0)).
  - reflexivity.
  - unfold thresholds_ordered; simpl; lia.
  - simpl; lia.
Defined.

(** ** Posting a transaction in any store *)

Lemma add_points_resolved w config w1 self amount_spent :
  get_current_config w = (Returns config, w1) ->
  Qeq_bool (LoyaltyConfig.points_per_real config) 0 = false ->
  add_points self amount_spent w =
    (Returns (Qfloor (amount_spent / LoyaltyConfig.points_per_real config),
              credited config (utcnow w) self amount_spent), w1).
Proof.
  intros Hrun Hnz. destruct (resolved_current _ _ _ Hrun) as (Hc & _ & _ & Hnow).
  unfold add_points, bind. rewrite Hrun.
  rewrite if_same, (int_floordiv_run _ _ _ Hnz). unfold ret at 1.
  rewrite (get_level_run _ config _ Hc). unfold get_world, ret. rewrite Hnow. reflexivity.
Qed.

Lemma add_points_resolved_zero w config w1 self amount_spent :
  get_current_config w = (Returns config, w1) ->
  Qeq_bool (LoyaltyConfig.points_per_real config) 0 = true ->
  w1 = w /\ add_points self amount_spent w = (Raises ZeroDivisionError, w).
Proof.
  intros Hrun Hz.
  destruct (find LoyaltyConfig.active (configs w)) as [c|] eqn:Hf.
  - rewrite (get_current_config_found w c Hf) in Hrun. injection Hrun as -> ->.
    split; [reflexivity|]. apply (add_points_zero _ _ _ _ Hf Hz).
  - destruct (get_current_config_fresh w Hf) as [Hrun' _]. rewrite Hrun' in Hrun.
    injection Hrun as <- _. discriminate Hz.
Qed.

Lemma add_transaction_resolved w config w1 customer_id customer data :
  get_current_config w = (Returns config, w1) ->
  find (fun c => Customer.id c =? customer_id)%Z (customers w) = Some customer ->
  Qle_bool (get_default (TransactionData.amount data) 0%Q) 0 = false ->
  Qeq_bool (LoyaltyConfig.points_per_real config) 0 = false ->
  add_transaction customer_id data w =
    (mkResponse
       (TransactionJson (posted_transaction config w customer_id customer data)
          (dict_for config (posted_customer config w customer data))) 201,
     mkWorld (store_customer (posted_customer config w customer data) (customers w))
             (transactions w ++ [posted_transaction config w customer_id customer data])%list
             (configs w1) (utcnow w)).
Proof.
  intros Hrun Hfind Hpos Hnz.
  destruct (resolved_current _ _ _ Hrun) as (Hc & Hrows & Hledger & Hnow).
  unfold add_transaction, try_except, bind at 1, get_or_404, bind at 1, get_world.
  rewrite Hfind. unfold ret at 1. rewrite Hpos.
  unfold bind at 1. rewrite (add_points_resolved _ _ _ _ _ Hrun Hnz).
  unfold bind at 1. rewrite (get_current_config_found _ _ Hc).
  unfold bind at 1. rewrite (calculate_benefit_value_run _ _ _ _ Hc Hnz).
  unfold posted_transaction, posted_customer. rewrite Hnow.
  destruct (benefit config (utcnow w) _ _) as [v c2] eqn:Hb.
  unfold bind at 1, get_world, bind at 1, insert_transaction, bind at 1, get_world,
    put_world, bind at 1, commit_customer, bind at 1, get_world, put_world. simpl.
  rewrite Hrows, Hledger, Hnow.
  unfold bind. rewrite (customer_to_dict_run _ config); [reflexivity|].
  exact Hc.
Qed.

Lemma le_fold_max ids x : In x ids -> x <= fold_right Z.max 0 ids.
Proof.
  induction ids as [|a ids IH]; simpl; [contradiction|].
  intros [->|H]; [lia|]. specialize (IH H). lia.
Qed.

(** The id given to an inserted row is not the id of a row of the table. *)
Lemma next_id_fresh ids : ~ In (next_id ids) ids.
Proof. intros H. apply le_fold_max in H. unfold next_id in H. lia. Qed.


Lemma posted_customer_id config w customer data :
  Customer.id (posted_customer config w customer data) = Customer.id customer.
Proof.
  unfold posted_customer, benefit.
  destruct (_ =? "discount")%string; [|destruct (_ =? "cashback")%string]; reflexivity.
Qed.







(** With a negative rate, which PUT /config accepts, a post takes points away. *)
Example add_transaction_negative_rate :
  let config := LoyaltyConfig.Build 1 "discount" (-10)%Q 500 1500 3000 5%Q 10%Q 15%Q 20%Q
                  EmptyString EmptyString 0 0 true in
  map Customer.points
    (customers (snd (add_transaction 1 (TransactionData.Build (Some 100%Q) None)
                       (sample_world config 600))))
  = [590].
Proof. reflexivity. Qed.

(** ** Registration *)

Lemma create_customer_accepts w data :
  registrable w data = true ->
  exists config w1,
    create_customer data w
      = (mkResponse (CustomerJson (dict_for config (new_customer w data))) 201, w1) /\
    current_config w1 config /\
    customers w1 = (customers w ++ [new_customer w data])%list /\
    transactions w1 = transactions w /\ utcnow w1 = utcnow w.
Proof.
  unfold registrable. intros H.
  apply andb_prop in H. destruct H as [H Hfind].
  apply andb_prop in H. destruct H as [H Hvalid].
  apply andb_prop in H. destruct H as [H Hphone].
  apply andb_prop in H. destruct H as [Hname Hcpf].
  apply negb_true_iff in Hname, Hcpf, Hphone.
  unfold create_customer, try_except.
  rewrite Hname, Hcpf, Hphone, Hvalid. change (negb true) with false. cbv iota.
  unfold bind at 1, query_customer_by_cpf, bind at 1, get_world, ret at 1.
  destruct (find _ (customers w)); [discriminate|].
  unfold bind at 1, bind at 1, insert_customer, bind at 1, get_world, put_world.
  unfold bind. cbv zeta.
  fold (new_customer w data).
  match goal with
  | |- context [customer_to_dict _ ?w0] =>
      destruct (customer_to_dict_total w0 (new_customer w data))
        as (config & w1 & Hrun & Hc & Hrows & Hledger & Hnow)
  end.
  rewrite Hrun. exists config, w1.
  split; [reflexivity|]. split; [exact Hc|]. repeat split; assumption.
Qed.

Lemma create_customer_refuses w data :
  registrable w data = false ->
  exists msg, create_customer data w = (mkResponse (Error msg) 400, w).
Proof.
  unfold registrable, create_customer, try_except. intros H.
  destruct (missing (CreateCustomerData.full_name data)); [eexists; reflexivity|].
  destruct (missing (CreateCustomerData.cpf data)); [eexists; reflexivity|].
  destruct (missing (CreateCustomerData.phone data)); [eexists; reflexivity|].
  destruct (validate_cpf _); [|eexists; reflexivity].
  change (negb true) with false. cbv iota.
  unfold bind at 1, query_customer_by_cpf, bind at 1, get_world, ret at 1.
  destruct (find _ (customers w)); [eexists; reflexivity|discriminate H].
Qed.



Lemma get_customer_by_cpf_missing w text :
  find (fun c => (Customer.cpf c =? re_sub_nondigits text)%string) (customers w) = None ->
  get_customer_by_cpf text w = (mkResponse (Error "Cliente não encontrado") 404, w).
Proof.
  intros Hfind.
  unfold get_customer_by_cpf, try_except, bind at 1, query_customer_by_cpf, bind at 1,
    get_world, ret at 1.
  rewrite Hfind. reflexivity.
Qed.



(** ** Editing and reading customers *)

(** The resolver looks at the policy table and the clock only. *)
Lemma get_current_config_frame w config w1 rows ledger :
  get_current_config w = (Returns config, w1) ->
  get_current_config (mkWorld rows ledger (configs w) (utcnow w))
  = (Returns config, mkWorld rows ledger (configs w1) (utcnow w)).
Proof.
  intros Hrun.
  destruct (find LoyaltyConfig.active (configs w)) as [c|] eqn:Hf.
  - rewrite (get_current_config_found w c Hf) in Hrun. injection Hrun as <- <-.
    apply get_current_config_found. exact Hf.
  - destruct (get_current_config_fresh w Hf) as [Hrun' _]. rewrite Hrun' in Hrun.
    injection Hrun as <- <-.
    destruct (get_current_config_fresh (mkWorld rows ledger (configs w) (utcnow w)) Hf)
      as [Hrun2 _].
    exact Hrun2.
Qed.

Lemma customer_to_dict_resolved w config w1 self :
  get_current_config w = (Returns config, w1) ->
  customer_to_dict self w = (Returns (dict_for config self), w1).
Proof.
  intros Hrun. destruct (resolved_current _ _ _ Hrun) as [Hc _].
  unfold customer_to_dict, bind. rewrite Hrun.
  rewrite (get_discount_run _ _ _ Hc), (points_to_next_level_run _ _ _ Hc). reflexivity.
Qed.

Lemma update_customer_resolved w config w1 customer_id customer data :
  get_current_config w = (Returns config, w1) ->
  find (fun c => Customer.id c =? customer_id)%Z (customers w) = Some customer ->
  update_customer customer_id data w =
    (mkResponse (CustomerJson (dict_for config (edited config data customer))) 200,
     mkWorld (store_customer (edited config data customer) (customers w))
             (transactions w) (configs w1) (utcnow w)).
Proof.
  intros Hrun Hfind.
  destruct (resolved_current _ _ _ Hrun) as (Hc & Hrows & Hledger & Hnow).
  unfold update_customer, try_except, bind at 1, get_or_404, bind at 1, get_world.
  rewrite Hfind. unfold ret at 1. unfold edited. cbv zeta.
  destruct (UpdateCustomerData.points data) as [v|].
  - unfold bind at 1, bind at 1.
    match goal with
    | |- context [get_level ?c w] => rewrite (get_level_resolved w config w1 c Hrun)
    end.
    unfold ret at 1.
    unfold bind at 1, commit_customer, bind at 1, get_world, put_world.
    unfold bind.
    match goal with
    | |- context [customer_to_dict ?c ?w2] =>
        rewrite (customer_to_dict_run w2 config c Hc)
    end.
    unfold ret. rewrite Hrows, Hledger, Hnow. reflexivity.
  - unfold bind at 1, ret at 1.
    unfold bind at 1, commit_customer, bind at 1, get_world, put_world.
    unfold bind.
    match goal with
    | |- context [customer_to_dict ?c (mkWorld ?rows ?ledger _ _)] =>
        rewrite (customer_to_dict_resolved _ config _ c
                   (get_current_config_frame w config w1 rows ledger Hrun))
    end.
    reflexivity.
Qed.

Lemma update_customer_unknown w customer_id data :
  find (fun c => Customer.id c =? customer_id)%Z (customers w) = None ->
  update_customer customer_id data w = (mkResponse (ErrorOf NotFound) 500, w).
Proof.
  intros Hfind. unfold update_customer, try_except, bind at 1, get_or_404, bind at 1, get_world.
  rewrite Hfind. reflexivity.
Qed.

Lemma edited_kept config data customer :
  Customer.id (edited config data customer) = Customer.id customer /\
  Customer.cpf (edited config data customer) = Customer.cpf customer /\
  Customer.total_spent (edited config data customer) = Customer.total_spent customer /\
  Customer.created_at (edited config data customer) = Customer.created_at customer /\
  Customer.last_visit (edited config data customer) = Customer.last_visit customer /\
  Customer.active (edited config data customer) = Customer.active customer.
Proof.
  unfold edited.
  destruct (UpdateCustomerData.full_name data), (UpdateCustomerData.phone data),
    (UpdateCustomerData.email data), (UpdateCustomerData.points data);
    cbn; repeat split.
Qed.



Lemma get_customer_unknown w customer_id :
  find (fun c => Customer.id c =? customer_id)%Z (customers w) = None ->
  get_customer customer_id w = (mkResponse (ErrorOf NotFound) 500, w).
Proof.
  intros Hfind. unfold get_customer, try_except, bind at 1, get_or_404, bind at 1, get_world.
  rewrite Hfind. reflexivity.
Qed.

Lemma get_customer_resolved w config w1 customer_id customer :
  get_current_config w = (Returns config, w1) ->
  find (fun c => Customer.id c =? customer_id)%Z (customers w) = Some customer ->
  get_customer customer_id w = (mkResponse (CustomerJson (dict_for config customer)) 200, w1).
Proof.
  intros Hrun Hfind.
  unfold get_customer, try_except, bind at 1, get_or_404, bind at 1, get_world.
  rewrite Hfind. unfold ret at 1, bind.
  rewrite (customer_to_dict_resolved _ _ _ _ Hrun). reflexivity.
Qed.

(** X13. An id no customer has is answered 500, not 404, by the three
    routes that load the customer by id: the exception [get_or_404] raises is
    caught by the route's own handler; the store is left as it was. The
    lookup by CPF answers 404 when no customer has the digits. *)
Theorem unknown_customer_answers
    (w : World) (customer_id : Z) (cpf : string)
    (edit : UpdateCustomerData.t) (post : TransactionData.t) :
  (find (fun c => Customer.id c =? customer_id)%Z (customers w) = None ->
   get_customer customer_id w = (mkResponse (ErrorOf NotFound) 500, w) /\
   update_customer customer_id edit w = (mkResponse (ErrorOf NotFound) 500, w) /\
   add_transaction customer_id post w = (mkResponse (ErrorOf NotFound) 500, w)) /\
  (find (fun c => (Customer.cpf c =? re_sub_nondigits cpf)%string) (customers w) = None ->
   get_customer_by_cpf cpf w = (mkResponse (Error "Cliente não encontrado") 404, w)).
Proof.
  split.
  - intros Hfind.
    split; [apply get_customer_unknown; exact Hfind|].
    split; [apply update_customer_unknown; exact Hfind|].
    apply add_transaction_unknown_customer; exact Hfind.
  - apply get_customer_by_cpf_missing.
Qed.

Lemma unknown_customer_answers_witness :
  let w := sample_world (default_config 1 0) 120 in
  (get_customer 7 w = (mkResponse (ErrorOf NotFound) 500, w) /\
   update_customer 7 (UpdateCustomerData.Build None None None (Some 10)) w
     = (mkResponse (ErrorOf NotFound) 500, w) /\
   add_transaction 7 (TransactionData.Build (Some 50%Q) None) w
     = (mkResponse (ErrorOf NotFound) 500, w)) /\
  get_customer_by_cpf "111.444.777-35" w = (mkResponse (Error "Cliente não encontrado") 404, w).
Proof.
  intros w.
  destruct (unknown_customer_answers w 7 "111.444.777-35"
              (UpdateCustomerData.Build None None None (Some 10))
              (TransactionData.Build (Some 50%Q) None)) as [Hid Hcpf].
  split; [apply Hid; reflexivity|apply Hcpf; reflexivity].
Defined.

(** X14. The routes that read a customer write nothing but the default
    policy: they leave the customer and transaction tables as they were, and
    the whole store when a policy is active; on a store without an active
    policy, reading an existing customer appends the default policy. *)
Theorem reading_customers_writes_at_most_the_policy
    (w : World) (customer_id : Z) (cpf : string) :
  let by_id := snd (get_customer customer_id w) in
  let by_cpf := snd (get_customer_by_cpf cpf w) in
  customers by_id = customers w /\ transactions by_id = transactions w /\
  customers by_cpf = customers w /\ transactions by_cpf = transactions w /\
  (active_configs w <> [] -> by_id = w /\ by_cpf = w) /\
  (active_configs w = [] ->
   configs by_id
   = match find (fun c => Customer.id c =? customer_id)%Z (customers w) with
     | Some _ => (configs w ++ [default_config (next_id (map LoyaltyConfig.id (configs w)))
                                  (utcnow w)])%list
     | None => configs w
     end).
Proof.
  cbv zeta.
  destruct (get_current_config_total w) as (config & w1 & Hrun & Hc1 & Hrows & Hledger & Hnow).
  assert (Hid : snd (get_customer customer_id w) = w \/ snd (get_customer customer_id w) = w1).
  { destruct (find (fun c => Customer.id c =? customer_id)%Z (customers w)) eqn:Hf.
    - right. rewrite (get_customer_resolved _ _ _ _ _ Hrun Hf). reflexivity.
    - left. rewrite (get_customer_unknown _ _ Hf). reflexivity. }
  assert (Hcpf : snd (get_customer_by_cpf cpf w) = w \/ snd (get_customer_by_cpf cpf w) = w1).
  { destruct (find (fun c => (Customer.cpf c =? re_sub_nondigits cpf)%string) (customers w))
      eqn:Hf.
    - right.
      unfold get_customer_by_cpf, try_except, bind at 1, query_customer_by_cpf, bind at 1,
        get_world, ret at 1.
      rewrite Hf. unfold bind. rewrite (customer_to_dict_resolved _ _ _ _ Hrun). reflexivity.
    - left. rewrite (get_customer_by_cpf_missing _ _ Hf). reflexivity. }
  split; [destruct Hid as [-> | ->]; auto|].
  split; [destruct Hid as [-> | ->]; auto|].
  split; [destruct Hcpf as [-> | ->]; auto|].
  split; [destruct Hcpf as [-> | ->]; auto|].
  split.
  - intros Hactive.
    assert (w1 = w).
    { unfold active_configs in Hactive.
      destruct (find LoyaltyConfig.active (configs w)) as [c|] eqn:Hf.
      - rewrite (get_current_config_found w c Hf) in Hrun. now injection Hrun.
      - exfalso. apply Hactive. apply find_none_filter. exact Hf. }
    subst w1. destruct Hid as [-> | ->], Hcpf as [-> | ->]; auto.
  - intros Hnone.
    assert (Hf : find LoyaltyConfig.active (configs w) = None).
    { unfold active_configs in Hnone.
      destruct (find LoyaltyConfig.active (configs w)) as [c|] eqn:Hf; [|reflexivity].
      destruct (find_some_filter _ _ _ Hf) as [rest Hrest]. rewrite Hrest in Hnone.
      discriminate. }
    destruct (get_current_config_fresh w Hf) as [Hrun' _].
    destruct (find (fun c => Customer.id c =? customer_id)%Z (customers w)) eqn:Hfc.
    + rewrite (get_customer_resolved _ _ _ _ _ Hrun' Hfc). reflexivity.
    + rewrite (get_customer_unknown _ _ Hfc). reflexivity.
Qed.

(** ** Changing the policy *)

Lemma update_loyalty_config_resolved w config w1 data :
  get_current_config w = (Returns config, w1) ->
  let config' := set_updated_at (utcnow w) (set_allowed_fields data config) in
  update_loyalty_config data w =
    (mkAnswer (Json config') 200,
     mkWorld (customers w) (transactions w) (store_config config' (configs w1)) (utcnow w)).
Proof.
  intros Hrun config'.
  destruct (resolved_current _ _ _ Hrun) as (_ & Hrows & Hledger & Hnow).
  unfold update_loyalty_config, catching, bind at 1. rewrite Hrun.
  unfold bind at 1, get_world, bind at 1, commit_config, bind at 1, get_world, put_world, ret.
  rewrite Hrows, Hledger, Hnow. reflexivity.
Qed.






(** Lowering the silver threshold: the customer reads as Prata at once, the
    stored row still says Bronze. *)
Example policy_change_leaves_cached_tier :
  let w := sample_world (default_config 1 0) 300 in
  let data := ConfigData.Build None None (Some 200) None None None None None None None None in
  let w' := snd (update_loyalty_config data w) in
  map Customer.level (customers w') = ["Bronze"] /\
  fst (get_level (sample_customer 300) w') = Returns "Prata".
Proof. split; reflexivity. Qed.

(** ** What every writing route keeps of the customer table *)

Lemma NoDup_snoc {A} (l : list A) (x : A) : NoDup l -> ~ In x l -> NoDup (l ++ [x]).
Proof.
  intros Hl Hx. induction Hl as [|a l Ha Hl IH]; simpl.
  - constructor; [intros []|constructor].
  - constructor.
    + rewrite in_app_iff. intros [H|[H|[]]]; [exact (Ha H)|]. apply Hx. left. symmetry. exact H.
    + apply IH. intros H. apply Hx. right. exact H.
Qed.

Lemma NoDup_map_injective {A B} (f : A -> B) (l : list A) (a b : A) :
  NoDup (map f l) -> In a l -> In b l -> f a = f b -> a = b.
Proof.
  induction l as [|x l IH]; simpl; [contradiction|].
  intros Hnd Ha Hb Hf. inversion Hnd as [|? ? Hx Hl]; subst.
  destruct Ha as [->|Ha], Hb as [->|Hb]; try reflexivity.
  - exfalso. apply Hx. rewrite Hf. apply in_map. exact Hb.
  - exfalso. apply Hx. rewrite <- Hf. apply in_map. exact Ha.
  - apply IH; assumption.
Qed.

Lemma store_customer_ids c' rows :
  map Customer.id (store_customer c' rows) = map Customer.id rows.
Proof.
  unfold store_customer. rewrite map_map. apply map_ext. intros r.
  destruct (Customer.id r =? Customer.id c')%Z eqn:H; [|reflexivity].
  apply Z.eqb_eq in H. symmetry. exact H.
Qed.

(** Overwriting a stored customer by a row of the same id, the same CPF and
    a tier name keeps the three guarantees. *)
Lemma store_customer_wf (w w' : World) (c c' : Customer.t) :
  customers_wf w ->
  In c (customers w) ->
  Customer.id c' = Customer.id c ->
  Customer.cpf c' = Customer.cpf c ->
  In (Customer.level c') tiers ->
  customers w' = store_customer c' (customers w) ->
  customers_wf w'.
Proof.
  intros (Hids & Hcpfs & Hall) Hin Hid Hcpf Hlevel Hrows.
  unfold customers_wf. rewrite Hrows. clear Hrows.
  assert (Hsame : forall r, In r (customers w) ->
                    (Customer.id r =? Customer.id c')%Z = true -> r = c).
  { intros r Hr Heq. apply Z.eqb_eq in Heq.
    apply (NoDup_map_injective Customer.id (customers w)); try assumption. congruence. }
  split; [rewrite store_customer_ids; exact Hids|].
  split.
  - replace (map Customer.cpf (store_customer c' (customers w)))
      with (map Customer.cpf (customers w)); [exact Hcpfs|].
    unfold store_customer. rewrite map_map. apply map_ext_in. intros r Hr.
    destruct (Customer.id r =? Customer.id c')%Z eqn:H; [|reflexivity].
    rewrite (Hsame r Hr H). symmetry. exact Hcpf.
  - unfold store_customer. apply Forall_map. rewrite Forall_forall in Hall |- *.
    intros r Hr. destruct (Customer.id r =? Customer.id c')%Z eqn:H; [|exact (Hall r Hr)].
    destruct (Hall c Hin) as (Hv & Hd & _). rewrite Hcpf. repeat split; assumption.
Qed.

Lemma posted_customer_kept config w customer data :
  Customer.cpf (posted_customer config w customer data) = Customer.cpf customer /\
  In (Customer.level (posted_customer config w customer data)) tiers.
Proof.
  unfold posted_customer, benefit.
  destruct (_ =? "discount")%string; [|destruct (_ =? "cashback")%string];
    split; try reflexivity; apply level_for_in_tiers.
Qed.

(** X17. The writing routes keep the customer table well formed: from a
    store where customer ids are unique, CPFs are unique, every CPF is stored
    as eleven digits the validator accepts and every cached tier is one of
    the four tier names, registration, edit, transaction post and policy
    change lead to a store with the same guarantees, whatever the request. *)
Theorem writing_routes_keep_customers_wf (w : World) :
  customers_wf w ->
  (forall data, customers_wf (snd (create_customer data w))) /\
  (forall customer_id data, customers_wf (snd (update_customer customer_id data w))) /\
  (forall customer_id data, customers_wf (snd (add_transaction customer_id data w))) /\
  (forall data, customers_wf (snd (update_loyalty_config data w))).
Proof.
  intros Hwf.
  destruct (get_current_config_total w) as (config & w1 & Hrun & _).
  split; [|split; [|split]].
  - intros data. destruct (registrable w data) eqn:Hreg.
    + destruct (create_customer_accepts w data Hreg) as (c0 & w' & -> & _ & Hrows & _).
      cbn [snd]. destruct Hwf as (Hids & Hcpfs & Hall).
      unfold registrable in Hreg.
      apply andb_prop in Hreg. destruct Hreg as [Hreg Hfind].
      apply andb_prop in Hreg. destruct Hreg as [_ Hvalid].
      unfold customers_wf. rewrite Hrows, !map_app. cbn [map].
      split; [apply NoDup_snoc; [exact Hids|apply next_id_fresh]|].
      split.
      { apply NoDup_snoc; [exact Hcpfs|].
        intros Hin. apply in_map_iff in Hin. destruct Hin as (c & Hc & Hin).
        destruct (find _ (customers w)) eqn:Hf; [discriminate|].
        pose proof (find_none _ _ Hf c Hin) as Hno. cbv beta in Hno.
        cbn [new_customer Customer.cpf] in Hc.
        rewrite Hc, String.eqb_refl in Hno. discriminate. }
      apply Forall_app. split; [exact Hall|].
      constructor; [|constructor]. cbn [new_customer Customer.cpf Customer.level].
      split; [|split; [apply re_sub_nondigits_idempotent|simpl; auto]].
      rewrite <- Hvalid. unfold validate_cpf. rewrite re_sub_nondigits_idempotent. reflexivity.
    + destruct (create_customer_refuses w data Hreg) as (msg & ->). exact Hwf.
  - intros customer_id data.
    destruct (find (fun c => Customer.id c =? customer_id)%Z (customers w)) as [c|] eqn:Hfind.
    + rewrite (update_customer_resolved w config w1 customer_id c data Hrun Hfind).
      cbn [snd].
      pose proof (edited_kept config data c) as (Hid & Hcpf & _).
      apply (store_customer_wf w _ c (edited config data c) Hwf);
        [exact (proj1 (find_some _ _ Hfind))|exact Hid|exact Hcpf| |reflexivity].
      destruct Hwf as (_ & _ & Hall). rewrite Forall_forall in Hall.
      destruct (Hall c (proj1 (find_some _ _ Hfind))) as (_ & _ & Hlevel).
      unfold edited.
      destruct (UpdateCustomerData.full_name data), (UpdateCustomerData.phone data),
        (UpdateCustomerData.email data), (UpdateCustomerData.points data);
        cbn; try exact Hlevel; apply level_for_in_tiers.
    + rewrite (update_customer_unknown w customer_id data Hfind). exact Hwf.
  - intros customer_id data.
    destruct (find (fun c => Customer.id c =? customer_id)%Z (customers w)) as [c|] eqn:Hfind.
    2:{ rewrite (add_transaction_unknown_customer w customer_id data Hfind). exact Hwf. }
    destruct (Qle_bool (get_default (TransactionData.amount data) 0%Q) 0) eqn:Hpos.
    { rewrite (add_transaction_invalid_amount w customer_id c data Hfind Hpos). exact Hwf. }
    destruct (Qeq_bool (LoyaltyConfig.points_per_real config) 0) eqn:Hz.
    { destruct (add_points_resolved_zero w config w1 c
                  (get_default (TransactionData.amount data) 0%Q) Hrun Hz) as [-> _].
      destruct (resolved_current _ _ _ Hrun) as [Hc _].
      rewrite (add_transaction_zero_rate w config customer_id c data Hc Hfind Hpos Hz).
      exact Hwf. }
    rewrite (add_transaction_resolved w config w1 customer_id c data Hrun Hfind Hpos Hz).
    cbn [snd].
    destruct (posted_customer_kept config w c data) as [Hcpf Hlevel].
    apply (store_customer_wf w _ c (posted_customer config w c data) Hwf);
      [exact (proj1 (find_some _ _ Hfind))|apply posted_customer_id|exact Hcpf|exact Hlevel
      |reflexivity].
  - intros data.
    rewrite (update_loyalty_config_resolved w config w1 data Hrun). exact Hwf.
Qed.

Lemma writing_routes_keep_customers_wf_witness :
  let w := sample_world (default_config 1 0) 120 in
  customers_wf (snd (create_customer (sample_registration "111.444.777-35" (Some 40)) w)) /\
  customers_wf (snd (update_customer 1 (UpdateCustomerData.Build None None None (Some 1500)) w)) /\
  customers_wf (snd (add_transaction 1 (TransactionData.Build (Some 80%Q) None) w)) /\
  customers_wf (snd (update_loyalty_config
                       (ConfigData.Build (Some "cashback") None None None None None None None
                          None None None) w)).
Proof.
  intros w.
  assert (Hwf : customers_wf w).
  { unfold customers_wf, w. cbn [sample_world customers map].
    split; [repeat constructor; intros []|].
    split; [repeat constructor; intros []|].
    repeat constructor; simpl; auto. }
  destruct (writing_routes_keep_customers_wf w Hwf) as (H1 & H2 & H3 & H4).
  split; [apply H1|]. split; [apply H2|]. split; [apply H3|apply H4].
Defined.

(** ** Statistics *)





(** ** Site content *)

Lemma dict_find_set d k k' v :
  dict_find (dict_set d k' v) k = if (k' =? k)%string then Some v else dict_find d k.
Proof.
  induction d as [|[k0 v0] d IH]; simpl.
  - reflexivity.
  - destruct (k0 =? k')%string eqn:H0; simpl.
    + apply String.eqb_eq in H0. subst k0.
      destruct (k' =? k)%string; reflexivity.
    + rewrite IH. destruct (k0 =? k)%string eqn:H1; [|reflexivity].
      apply String.eqb_eq in H1. subst k0. rewrite String.eqb_sym, H0. reflexivity.
Qed.

(** The document of GET /content maps a key to the value of its last row. *)
Lemma content_dict_find rows d k :
  dict_find
    (fold_left (fun d item => dict_set d (SiteContent.key item) (SiteContent.value item)) rows d)
    k
  = match last_value k rows with
    | Some v => Some v
    | None => dict_find d k
    end.
Proof.
  revert d. induction rows as [|r rows IH]; intros d; simpl; [reflexivity|].
  rewrite IH. destruct (last_value k rows); [reflexivity|].
  rewrite dict_find_set. destruct (SiteContent.key r =? k)%string; reflexivity.
Qed.

Lemma last_value_app k rows r :
  last_value k (rows ++ [r])
  = if (SiteContent.key r =? k)%string then Some (SiteContent.value r) else last_value k rows.
Proof.
  induction rows as [|x rows IH]; simpl; [reflexivity|].
  rewrite IH. destruct (SiteContent.key r =? k)%string; reflexivity.
Qed.

Lemma last_value_key k rows v :
  last_value k rows = Some v -> In k (map SiteContent.key rows).
Proof.
  revert v. induction rows as [|r rows IH]; intros v; simpl; [discriminate|].
  destruct (last_value k rows) as [v'|].
  - intros _. right. apply (IH v' eq_refl).
  - destruct (SiteContent.key r =? k)%string eqn:H; [|discriminate].
    intros _. left. apply String.eqb_eq. exact H.
Qed.

(** Under the unique key the last row with a key is the first one. *)
Lemma last_value_find k rows :
  NoDup (map SiteContent.key rows) ->
  last_value k rows
  = option_map SiteContent.value (find (fun c => (SiteContent.key c =? k)%string) rows).
Proof.
  induction rows as [|r rows IH]; simpl; [reflexivity|].
  intros Hnd. inversion Hnd as [|? ? Hr Hrows]; subst.
  destruct (SiteContent.key r =? k)%string eqn:H.
  - apply String.eqb_eq in H. subst k.
    destruct (last_value (SiteContent.key r) rows) eqn:Hl; [|reflexivity].
    exfalso. apply Hr. apply (last_value_key _ _ _ Hl).
  - rewrite (IH Hrows). destruct (find _ rows); reflexivity.
Qed.

Lemma store_content_ids c rows :
  map SiteContent.id (store_content c rows) = map SiteContent.id rows.
Proof.
  unfold store_content. rewrite map_map. apply map_ext. intros r.
  destruct (SiteContent.id r =? SiteContent.id c)%Z eqn:H; [|reflexivity].
  apply Z.eqb_eq in H. symmetry. exact H.
Qed.

Lemma store_content_keys c rows :
  (forall r, In r rows -> SiteContent.id r = SiteContent.id c ->
             SiteContent.key r = SiteContent.key c) ->
  map SiteContent.key (store_content c rows) = map SiteContent.key rows.
Proof.
  intros Hsame. unfold store_content. rewrite map_map. apply map_ext_in. intros r Hr.
  destruct (SiteContent.id r =? SiteContent.id c)%Z eqn:H; [|reflexivity].
  apply Z.eqb_eq in H. symmetry. apply Hsame; assumption.
Qed.

Lemma find_store_content k c rows :
  NoDup (map SiteContent.key rows) ->
  (forall r, In r rows -> SiteContent.id r = SiteContent.id c ->
             SiteContent.key r = SiteContent.key c) ->
  (exists r, In r rows /\ SiteContent.id r = SiteContent.id c) ->
  option_map SiteContent.value
    (find (fun x => (SiteContent.key x =? k)%string) (store_content c rows))
  = if (SiteContent.key c =? k)%string then Some (SiteContent.value c)
    else option_map SiteContent.value (find (fun x => (SiteContent.key x =? k)%string) rows).
Proof.
  intros Hnd Hsame Hex.
  pose proof (store_content_keys c rows Hsame) as Hkeys.
  assert (Hnd' : NoDup (map SiteContent.key (store_content c rows))) by (rewrite Hkeys; exact Hnd).
  rewrite <- !last_value_find by assumption.
  clear Hnd' Hkeys.
  destruct (SiteContent.key c =? k)%string eqn:Hk.
  - apply String.eqb_eq in Hk. subst k.
    destruct Hex as (r0 & Hin & Hid). unfold store_content.
    induction rows as [|r rows IH]; [destruct Hin|].
    cbn [map last_value]. inversion Hnd as [|? ? Hr Hrows]; subst.
    destruct Hin as [->|Hin].
    + rewrite Hid, Z.eqb_refl.
      destruct (last_value (SiteContent.key c) (map _ rows)) eqn:Hl.
      * exfalso. apply Hr. apply last_value_key in Hl.
        change (map _ rows) with (store_content c rows) in Hl.
        rewrite store_content_keys in Hl by (intros; apply Hsame; [right|]; assumption).
        rewrite (Hsame r0 (or_introl eq_refl) Hid). exact Hl.
      * rewrite String.eqb_refl. reflexivity.
    + rewrite (IH Hrows (fun r Hr' => Hsame r (or_intror Hr')) Hin). reflexivity.
  - unfold store_content. clear Hex.
    induction rows as [|r rows IH]; [reflexivity|].
    cbn [map last_value]. inversion Hnd as [|? ? Hr Hrows]; subst.
    rewrite (IH Hrows (fun r Hr' => Hsame r (or_intror Hr'))).
    destruct (last_value k rows); [reflexivity|].
    destruct (SiteContent.id r =? SiteContent.id c)%Z eqn:Hid; [|reflexivity].
    apply Z.eqb_eq in Hid. rewrite (Hsame r (or_introl eq_refl) Hid), Hk. reflexivity.
Qed.

(** One turn of the loop: the constraints are kept and the key of the pair
    gets its value, the other keys keeping theirs. *)
Lemma upsert_content_step now rows key value :
  NoDup (map SiteContent.id rows) ->
  NoDup (map SiteContent.key rows) ->
  let rows' := upsert_content now rows (key, value) in
  NoDup (map SiteContent.id rows') /\
  NoDup (map SiteContent.key rows') /\
  forall k, last_value k rows' = if (key =? k)%string then Some value else last_value k rows.
Proof.
  intros Hids Hkeys. unfold upsert_content.
  destruct (find (fun c => (SiteContent.key c =? key)%string) rows) as [content|] eqn:Hfind.
  - set (c := SiteContent.Build _ _ _ _ _). cbv zeta.
    pose proof (find_some _ _ Hfind) as [Hin Hkey]. apply String.eqb_eq in Hkey.
    assert (Hsame : forall r, In r rows -> SiteContent.id r = SiteContent.id c ->
                              SiteContent.key r = SiteContent.key c).
    { intros r Hr Hid.
      rewrite (NoDup_map_injective SiteContent.id rows r content Hids Hr Hin Hid). reflexivity. }
    split; [rewrite store_content_ids; exact Hids|].
    split; [rewrite (store_content_keys c rows Hsame); exact Hkeys|].
    intros k.
    rewrite last_value_find by (rewrite (store_content_keys c rows Hsame); exact Hkeys).
    rewrite (find_store_content k c rows Hkeys Hsame)
      by (exists content; split; [exact Hin|reflexivity]).
    cbn [c SiteContent.key SiteContent.value]. rewrite Hkey.
    rewrite last_value_find by exact Hkeys. reflexivity.
  - cbv zeta. rewrite !map_app. cbn [map SiteContent.id SiteContent.key].
    split; [apply NoDup_snoc; [exact Hids|apply next_id_fresh]|].
    split.
    + apply NoDup_snoc; [exact Hkeys|].
      intros Hin. apply in_map_iff in Hin. destruct Hin as (r & Hr & Hin).
      pose proof (find_none _ _ Hfind r Hin) as Hno. cbv beta in Hno.
      rewrite Hr, String.eqb_refl in Hno. discriminate.
    + intros k. rewrite last_value_app. reflexivity.
Qed.

Lemma upsert_content_all now data rows :
  NoDup (map SiteContent.id rows) ->
  NoDup (map SiteContent.key rows) ->
  let rows' := fold_left (upsert_content now) data rows in
  NoDup (map SiteContent.id rows') /\
  NoDup (map SiteContent.key rows') /\
  forall k, last_value k rows'
            = match last_item k data with
              | Some v => Some v
              | None => last_value k rows
              end.
Proof.
  revert rows. induction data as [|[key value] data IH]; intros rows Hids Hkeys.
  - cbn. repeat split; assumption.
  - cbn [fold_left last_item].
    destruct (upsert_content_step now rows key value Hids Hkeys) as (Hids1 & Hkeys1 & Hstep).
    destruct (IH _ Hids1 Hkeys1) as (Hids2 & Hkeys2 & Hall).
    split; [exact Hids2|]. split; [exact Hkeys2|].
    intros k. rewrite Hall, Hstep.
    destruct (last_item k data); [reflexivity|]. destruct (key =? k)%string; reflexivity.
Qed.

(** X20. PUT /content followed by GET /content: under the constraints of
    the table (unique ids, unique keys) the update answers 200 and keeps the
    constraints, and the document read back gives every key of the request
    the value of its last pair and every other key the value it had. *)
Theorem update_site_content_read_back
    (s : ContentStore) (data : list (string * string)) :
  content_wf s ->
  let s' := snd (update_site_content data s) in
  snd (fst (update_site_content data s)) = 200 /\
  content_wf s' /\
  forall k,
    dict_find (fst (fst (get_site_content s'))) k
    = match last_item k data with
      | Some v => Some v
      | None => dict_find (fst (fst (get_site_content s))) k
      end.
Proof.
  intros [Hids Hkeys]. cbv zeta.
  destruct (upsert_content_all (content_utcnow s) data (site_content s) Hids Hkeys)
    as (Hids' & Hkeys' & Hall).
  split; [reflexivity|]. split; [split; assumption|].
  intros k. unfold get_site_content, update_site_content. cbn [fst snd site_content].
  rewrite !content_dict_find. cbn [dict_find]. rewrite Hall.
  destruct (last_item k data); [reflexivity|].
  destruct (last_value k (site_content s)); reflexivity.
Qed.

Lemma update_site_content_read_back_witness :
  let s := mkContentStore [SiteContent.Build 1 "title" "Kaseirim" None 0;
                           SiteContent.Build 2 "hours" "11-23" None 0] 1700000000 in
  let data := [("hours", "12-22"); ("phone", "1133334444")] in
  content_wf (snd (update_site_content data s)) /\
  fst (fst (get_site_content (snd (update_site_content data s))))
  = [("title", "Kaseirim"); ("hours", "12-22"); ("phone", "1133334444")].
Proof.
  intros s data.
  assert (Hwf : content_wf s).
  { split; repeat constructor; simpl; intuition discriminate. }
  destruct (update_site_content_read_back s data Hwf) as (_ & Hwf' & _).
  split; [exact Hwf'|reflexivity].
Defined.
